(** * go-serverless-yt: a CRUD backend for a single "user" table

    A shallow embedding of the two packages of the repository,
    [pkg/user] (storage access) and [pkg/handlers] (request dispatch),
    and the properties of the specification checked against them.

    The Go code talks to three libraries it does not own:
    - the DynamoDB client ([dynamodbiface.DynamoDBAPI], an interface),
    - [encoding/json] and [net/mail],
    - [dynamodbattribute] (conversion between structs and attribute maps).
    The client is a type class over an abstract backend state, the JSON
    codec and the address parser are type-class parameters, and the
    attribute conversion is written out for the [User] struct.  Every
    statement about the code alone is proved for all instances; the
    statements about what a table holds afterwards use the reference
    table of module [memdb]. *)

From stdpp Require Import gmap strings list fin_maps.
From Stdlib Require Import ZArith Ascii.

Set Default Proof Using "Type".
Local Open Scope string_scope.
Local Open Scope list_scope.

(** Go's [(value, error)] pairs, of which exactly one is meaningful. *)
Inductive result (E A : Type) : Type :=
| Ok (a : A)
| Error (e : E).
Arguments Ok {E A} a.
Arguments Error {E A} e.

(** ** The DynamoDB API, as far as the repository uses it *)
Module dynamodb.

(** [dynamodb.AttributeValue]: the string, null and boolean alternatives.
    Strings and nulls are what the [User] struct marshals to; booleans stand
    for an attribute a string field cannot be decoded from. *)
Inductive AttributeValue : Type :=
| AttrS (s : string)
| AttrNULL
| AttrBOOL (b : bool).

#[export] Instance AttributeValue_eq_dec : EqDecision AttributeValue.
Proof. solve_decision. Defined.

(** [map[string]*dynamodb.AttributeValue] *)
Abbreviation Item := (gmap string AttributeValue).

(** The errors of a client call: the code tells
    [*dynamodb.ConditionalCheckFailedException] from everything else. *)
Inductive awserr : Type :=
| ConditionalCheckFailedException
| ValidationException
| RequestFailure (code : string).

Record GetItemInput : Type := mkGetItemInput
  { GetItemInput_TableName : string;
    GetItemInput_Key : Item }.

(** [Item] is [nil] when the table holds nothing under the key. *)
Record GetItemOutput : Type := mkGetItemOutput
  { GetItemOutput_Item : option Item }.

Record ScanInput : Type := mkScanInput
  { ScanInput_TableName : string;
    ScanInput_ExclusiveStartKey : option Item }.

Record ScanOutput : Type := mkScanOutput
  { ScanOutput_Items : list Item;
    ScanOutput_LastEvaluatedKey : option Item }.

Record PutItemInput : Type := mkPutItemInput
  { PutItemInput_TableName : string;
    PutItemInput_Item : Item;
    PutItemInput_ConditionExpression : option string }.

Record PutItemOutput : Type := mkPutItemOutput
  { PutItemOutput_Attributes : option Item }.

Record UpdateItemInput : Type := mkUpdateItemInput
  { UpdateItemInput_TableName : string;
    UpdateItemInput_Key : Item;
    UpdateItemInput_UpdateExpression : option string;
    UpdateItemInput_ConditionExpression : option string;
    UpdateItemInput_ExpressionAttributeValues : Item;
    UpdateItemInput_ReturnValues : option string }.

Record UpdateItemOutput : Type := mkUpdateItemOutput
  { UpdateItemOutput_Attributes : option Item }.

Record DeleteItemInput : Type := mkDeleteItemInput
  { DeleteItemInput_TableName : string;
    DeleteItemInput_Key : Item;
    DeleteItemInput_ConditionExpression : option string }.

Record DeleteItemOutput : Type := mkDeleteItemOutput
  { DeleteItemOutput_Attributes : option Item }.

(** [dynamodbiface.DynamoDBAPI], restricted to the five methods called.
    [B] is the state of the backend behind the client; a call returns its
    outcome and the state it leaves. *)
Class DynamoDBAPI (B : Type) : Type :=
  { GetItem : GetItemInput -> B -> result awserr GetItemOutput * B;
    Scan : ScanInput -> B -> result awserr ScanOutput * B;
    PutItem : PutItemInput -> B -> result awserr PutItemOutput * B;
    UpdateItem : UpdateItemInput -> B -> result awserr UpdateItemOutput * B;
    DeleteItem : DeleteItemInput -> B -> result awserr DeleteItemOutput * B }.

End dynamodb.

(** ** Package [user] *)
Module user.
Import dynamodb.

Definition error : Type := string.

Definition errors_New (text : string) : error := text.

Definition ErrorFailedToUnmarshalRecord : string := "failed to unmarshal record".
Definition ErrorFailedToFetchRecord : string := "failed to fetch record".
Definition ErrorInvalidUserData : string := "invalid user data".
Definition ErrorInvalidEmail : string := "invalid email".
Definition ErrorCouldNotMarshalItem : string := "could not marshal item".
Definition ErrorCouldNotDeleteItem : string := "could not delete item".
Definition ErrorCouldNotPutItem : string := "could not put item".
Definition ErrorUserAlreadyExists : string := "user already exists".
Definition ErrorUserDoesNotExist : string := "user does not exist".

Record User : Type := mkUser
  { Email : string;
    FirstName : string;
    LastName : string }.

#[export] Instance User_eq_dec : EqDecision User.
Proof. solve_decision. Defined.

(** [User{}] and [new(User)] *)
Definition zero_User : User := mkUser "" "" "".

(** [events.APIGatewayProxyRequest]: the fields the repository reads. *)
Record APIGatewayProxyRequest : Type := mkRequest
  { Request_PathParameters : gmap string string;
    Request_Body : string }.

(** The two standard-library calls of the package.
    [json_Unmarshal data v] is [json.Unmarshal(data, &v)]: [None] when it
    returns an error, otherwise the struct it leaves in [v].
    [mail_ParseAddress s] tells whether [mail.ParseAddress(s)] returns no
    error (the parsed address itself is dropped by the caller); the parser
    answers "mail: no address" on the empty string. *)
Class GoStd : Type :=
  { json_Unmarshal : string -> User -> option User;
    mail_ParseAddress : string -> bool;
    mail_ParseAddress_empty : mail_ParseAddress "" = false }.

(** *** [dynamodbattribute] on the [User] struct

    The encoder names attributes after the [json] struct tags and, with its
    default [NullEmptyString], turns an empty string into a NULL attribute. *)
Inductive MarshalError : Type :=
| UnmarshalTypeError (value : string).

Definition encodeString (s : string) : AttributeValue :=
  if decide (s = "") then AttrNULL else AttrS s.

(** The attribute map of a [User]: one attribute per field. *)
Definition encodeStruct (u : User) : Item :=
  <["email" := encodeString (Email u)]>
    (<["firstName" := encodeString (FirstName u)]>
      (<["lastName" := encodeString (LastName u)]> ∅)).

(** [MarshalMap(user)]; no field of [User] can fail to encode. *)
Definition MarshalMap (u : User) : result MarshalError Item :=
  Ok (encodeStruct u).

(** Decoding one attribute into a string field that holds [old]: an absent
    attribute leaves the field alone, NULL resets it, a string sets it, and
    any other kind is a type error.  Attribute names are matched exactly. *)
Definition decodeField (av : option AttributeValue) (old : string)
  : result MarshalError string :=
  match av with
  | None => Ok old
  | Some (AttrS s) => Ok s
  | Some AttrNULL => Ok ""
  | Some (AttrBOOL _) => Error (UnmarshalTypeError "bool")
  end.

(** [UnmarshalMap(m, &out)]; a nil (or empty) map decodes nothing. *)
Definition UnmarshalMap (m : option Item) (out : User) : result MarshalError User :=
  match m with
  | None => Ok out
  | Some m =>
    match decodeField (m !! "email") (Email out) with
    | Error e => Error e
    | Ok email =>
      match decodeField (m !! "firstName") (FirstName out) with
      | Error e => Error e
      | Ok firstName =>
        match decodeField (m !! "lastName") (LastName out) with
        | Error e => Error e
        | Ok lastName => Ok (mkUser email firstName lastName)
        end
      end
    end
  end.

(** [UnmarshalListOfMaps(l, &out)] with [out] a fresh [[]User]. *)
Fixpoint UnmarshalListOfMaps (l : list Item) : result MarshalError (list User) :=
  match l with
  | [] => Ok []
  | m :: l' =>
    match UnmarshalMap (Some m) zero_User with
    | Error e => Error e
    | Ok u =>
      match UnmarshalListOfMaps l' with
      | Error e => Error e
      | Ok us => Ok (u :: us)
      end
    end
  end.

(** [strings.Join] *)
Fixpoint strings_Join (elems : list string) (sep : string) : string :=
  match elems with
  | [] => ""
  | [e] => e
  | e :: rest => e +:+ sep +:+ strings_Join rest sep
  end.

(** [fmt.Sprintf("%s = :%s", fieldName, fieldName)] *)
Definition updateExpressionPart (fieldName : string) : string :=
  fieldName +:+ " = :" +:+ fieldName.

Section WithClient.
Context {B : Type} `{!DynamoDBAPI B} `{!GoStd}.

Definition FetchUser (email tableName : string) (dynaClient : B)
  : result error User * B :=
  let input :=
    {| GetItemInput_TableName := tableName;
       GetItemInput_Key := {[ "email" := AttrS email ]} |} in
  let '(res, dynaClient) := GetItem input dynaClient in
  match res with
  | Error _ => (Error (errors_New ErrorFailedToFetchRecord), dynaClient)
  | Ok res =>
    let item := zero_User in
    match UnmarshalMap (GetItemOutput_Item res) item with
    | Error _ => (Error (errors_New ErrorFailedToUnmarshalRecord), dynaClient)
    | Ok item => (Ok item, dynaClient)
    end
  end.

(** The [for] loop of [FetchUsers].  Nothing in the code bounds the number
    of rounds, so the embedding counts them: [None] means there were more
    pages than [rounds]. *)
Fixpoint FetchUsers_loop (rounds : nat) (input : ScanInput) (users : list User)
    (dynaClient : B) : option (result error (list User) * B) :=
  match rounds with
  | 0 => None
  | S rounds =>
    let '(res, dynaClient) := Scan input dynaClient in
    match res with
    | Error _ => Some (Error (errors_New ErrorFailedToFetchRecord), dynaClient)
    | Ok res =>
      match UnmarshalListOfMaps (ScanOutput_Items res) with
      | Error _ =>
        Some (Error (errors_New ErrorFailedToUnmarshalRecord), dynaClient)
      | Ok items =>
        let users := users ++ items in
        match ScanOutput_LastEvaluatedKey res with
        | Some key =>
          let input :=
            {| ScanInput_TableName := ScanInput_TableName input;
               ScanInput_ExclusiveStartKey := Some key |} in
          FetchUsers_loop rounds input users dynaClient
        | None => Some (Ok users, dynaClient)
        end
      end
    end
  end.

Definition FetchUsers (rounds : nat) (tableName : string) (dynaClient : B)
  : option (result error (list User) * B) :=
  let input :=
    {| ScanInput_TableName := tableName;
       ScanInput_ExclusiveStartKey := None |} in
  let users := [] in
  FetchUsers_loop rounds input users dynaClient.

(** The request [CreateUser] builds once the body is parsed and checked. *)
Definition CreateUser_input (tableName : string) (item : Item) : PutItemInput :=
  {| PutItemInput_TableName := tableName;
     PutItemInput_Item := item;
     PutItemInput_ConditionExpression := Some "attribute_not_exists(email)" |}.

(** The [default] branch of the error switch also prints the backend error
    with [fmt.Print]; standard output is not part of the embedding. *)
Definition CreateUser (req : APIGatewayProxyRequest) (tableName : string)
    (dynaClient : B) : result error User * B :=
  let user := zero_User in
  match json_Unmarshal (Request_Body req) user with
  | None => (Error (errors_New ErrorInvalidUserData), dynaClient)
  | Some user =>
    if negb (mail_ParseAddress (Email user))
    then (Error (errors_New ErrorInvalidEmail), dynaClient)
    else
      match MarshalMap user with
      | Error _ => (Error (errors_New ErrorCouldNotMarshalItem), dynaClient)
      | Ok item =>
        let input := CreateUser_input tableName item in
        let '(res, dynaClient) := PutItem input dynaClient in
        match res with
        | Error ConditionalCheckFailedException =>
          (Error (errors_New ErrorUserAlreadyExists), dynaClient)
        | Error _ => (Error (errors_New ErrorCouldNotPutItem), dynaClient)
        | Ok _ => (Ok user, dynaClient)
        end
      end
  end.

(** The [updates] slice of [UpdateUser]. *)
Definition UpdateUser_updates (user : User) : list string :=
  let updates := [] in
  let updates :=
    if decide (FirstName user = "") then updates
    else updates ++ [updateExpressionPart "fieldName"] in
  let updates :=
    if decide (LastName user = "") then updates
    else updates ++ [updateExpressionPart "lastName"] in
  updates.

(** The request [UpdateUser] builds from the parsed body. *)
Definition UpdateUser_input (tableName : string) (user : User) (item : Item)
  : UpdateItemInput :=
  let updates := UpdateUser_updates user in
  {| UpdateItemInput_TableName := tableName;
     UpdateItemInput_Key := item;
     UpdateItemInput_UpdateExpression :=
       Some ("SET " +:+ strings_Join updates ", ");
     UpdateItemInput_ConditionExpression := Some "attribute_exists(email)";
     UpdateItemInput_ExpressionAttributeValues := item;
     UpdateItemInput_ReturnValues := Some "ALL_NEW" |}.

Definition UpdateUser (req : APIGatewayProxyRequest) (tableName : string)
    (dynaClient : B) : result error User * B :=
  let user := zero_User in
  match json_Unmarshal (Request_Body req) user with
  | None => (Error (errors_New ErrorInvalidUserData), dynaClient)
  | Some user =>
    match MarshalMap user with
    | Error _ => (Error (errors_New ErrorCouldNotMarshalItem), dynaClient)
    | Ok item =>
      let input := UpdateUser_input tableName user item in
      let '(res, dynaClient) := UpdateItem input dynaClient in
      match res with
      | Error ConditionalCheckFailedException =>
        (Error (errors_New ErrorUserDoesNotExist), dynaClient)
      | Error _ => (Error (errors_New ErrorCouldNotPutItem), dynaClient)
      | Ok res =>
        match UnmarshalMap (UpdateItemOutput_Attributes res) user with
        | Error _ =>
          (Error (errors_New ErrorFailedToUnmarshalRecord), dynaClient)
        | Ok user => (Ok user, dynaClient)
        end
      end
    end
  end.

(** The request [DeleteUser] builds from the parsed body. *)
Definition DeleteUser_input (tableName : string) (item : Item) : DeleteItemInput :=
  {| DeleteItemInput_TableName := tableName;
     DeleteItemInput_Key := item;
     DeleteItemInput_ConditionExpression := Some "attribute_exists(email)" |}.

(** [DeleteUser] returns an [error] only: [None] is Go's [nil]. *)
Definition DeleteUser (req : APIGatewayProxyRequest) (tableName : string)
    (dynaClient : B) : option error * B :=
  let user := zero_User in
  match json_Unmarshal (Request_Body req) user with
  | None => (Some (errors_New ErrorInvalidUserData), dynaClient)
  | Some user =>
    match MarshalMap user with
    | Error _ => (Some (errors_New ErrorCouldNotMarshalItem), dynaClient)
    | Ok item =>
      let input := DeleteUser_input tableName item in
      let '(res, dynaClient) := DeleteItem input dynaClient in
      match res with
      | Error ConditionalCheckFailedException =>
        (Some (errors_New ErrorUserDoesNotExist), dynaClient)
      | Error _ => (Some (errors_New ErrorCouldNotDeleteItem), dynaClient)
      | Ok _ => (None, dynaClient)
      end
    end
  end.

(** The replies a backend gives when it is scanned from the start key
    [key] and every further request carries the [LastEvaluatedKey] of the
    reply before it, down to the first reply without one.  [b] is the
    backend before the first request and [b'] after the last. *)
Inductive scan_run (tableName : string)
  : option Item -> B -> list ScanOutput -> B -> Prop :=
| scan_run_last key b out b' :
    Scan {| ScanInput_TableName := tableName;
            ScanInput_ExclusiveStartKey := key |} b = (Ok out, b') ->
    ScanOutput_LastEvaluatedKey out = None ->
    scan_run tableName key b [out] b'
| scan_run_more key b out next b1 outs b' :
    Scan {| ScanInput_TableName := tableName;
            ScanInput_ExclusiveStartKey := key |} b = (Ok out, b1) ->
    ScanOutput_LastEvaluatedKey out = Some next ->
    scan_run tableName (Some next) b1 outs b' ->
    scan_run tableName key b (out :: outs) b'.

(** The scan requests that obtain a list of replies that way. *)
Fixpoint scan_requests (tableName : string) (key : option Item)
    (outs : list ScanOutput) : list ScanInput :=
  match outs with
  | [] => []
  | out :: outs =>
    {| ScanInput_TableName := tableName; ScanInput_ExclusiveStartKey := key |}
    :: scan_requests tableName (ScanOutput_LastEvaluatedKey out) outs
  end.

End WithClient.

End user.

(** ** Package [handlers] *)
Module handlers.
Import dynamodb user.

Definition ErrorMethodNotAllowed : string := "Method not allowed".

Record ErrorBody : Type := mkErrorBody
  { ErrorMsg : option string }.

(** [aws.String] *)
Definition aws_String (s : string) : option string := Some s.

Definition http_StatusOK : Z := 200.
Definition http_StatusCreated : Z := 201.
Definition http_StatusNoContent : Z := 204.
Definition http_StatusMethodNotAllowed : Z := 405.
Definition http_StatusInternalServerError : Z := 500.

(** The values the handlers pass as the [interface{}] body of a response. *)
Inductive Payload : Type :=
| PayloadUser (u : User)
| PayloadUsers (us : list User)
| PayloadError (e : ErrorBody)
| PayloadString (s : string)
| PayloadNil.

(** [json.Marshal] on those values. *)
Class Marshaler : Type :=
  { json_Marshal : Payload -> string }.

(** [events.APIGatewayProxyResponse]: status code and body. *)
Record APIGatewayProxyResponse : Type := mkResponse
  { Response_StatusCode : Z;
    Response_Body : string }.

Section WithClient.
Context {B : Type} `{!DynamoDBAPI B} `{!GoStd} `{!Marshaler}.

(** Modelled from the spec: [apiResponse], which the handlers call and which
    is not among the source files.  The spec gives the response envelope as
    a status code and the JSON encoding of the result or of the error
    object. *)
Definition apiResponse (status : Z) (body : Payload) : APIGatewayProxyResponse :=
  {| Response_StatusCode := status;
     Response_Body := json_Marshal body |}.

(** The response to a storage error [err]: status 500 and the error object
    holding the message. *)
Definition failure_response (err : error) : APIGatewayProxyResponse :=
  {| Response_StatusCode := 500;
     Response_Body := json_Marshal (PayloadError {| ErrorMsg := Some err |}) |}.

(** [req.PathParameters["email"]]: a missing key reads as the empty string.
    [rounds] bounds the scan loop of [FetchUsers]. *)
Definition GetUser (rounds : nat) (req : APIGatewayProxyRequest)
    (tableName : string) (dynaClient : B)
  : option (APIGatewayProxyResponse * B) :=
  let email := default "" (Request_PathParameters req !! "email") in
  if (0 <? String.length email)%nat then
    let '(res, dynaClient) := FetchUser email tableName dynaClient in
    match res with
    | Error err =>
      Some (apiResponse http_StatusInternalServerError
              (PayloadError (mkErrorBody (aws_String err))), dynaClient)
    | Ok res => Some (apiResponse http_StatusOK (PayloadUser res), dynaClient)
    end
  else
    match FetchUsers rounds tableName dynaClient with
    | None => None
    | Some (Error err, dynaClient) =>
      Some (apiResponse http_StatusInternalServerError
              (PayloadError (mkErrorBody (aws_String err))), dynaClient)
    | Some (Ok res, dynaClient) =>
      Some (apiResponse http_StatusOK (PayloadUsers res), dynaClient)
    end.

Definition CreateUser (req : APIGatewayProxyRequest) (tableName : string)
    (dynaClient : B) : APIGatewayProxyResponse * B :=
  let '(res, dynaClient) := user.CreateUser req tableName dynaClient in
  match res with
  | Error err =>
    (apiResponse http_StatusInternalServerError
       (PayloadError (mkErrorBody (aws_String err))), dynaClient)
  | Ok res => (apiResponse http_StatusCreated (PayloadUser res), dynaClient)
  end.

Definition UpdateUser (req : APIGatewayProxyRequest) (tableName : string)
    (dynaClient : B) : APIGatewayProxyResponse * B :=
  let '(res, dynaClient) := user.UpdateUser req tableName dynaClient in
  match res with
  | Error err =>
    (apiResponse http_StatusInternalServerError
       (PayloadError (mkErrorBody (aws_String err))), dynaClient)
  | Ok res => (apiResponse http_StatusCreated (PayloadUser res), dynaClient)
  end.

Definition DeleteUser (req : APIGatewayProxyRequest) (tableName : string)
    (dynaClient : B) : APIGatewayProxyResponse * B :=
  let '(err, dynaClient) := user.DeleteUser req tableName dynaClient in
  match err with
  | Some err =>
    (apiResponse http_StatusInternalServerError
       (PayloadError (mkErrorBody (aws_String err))), dynaClient)
  | None => (apiResponse http_StatusNoContent PayloadNil, dynaClient)
  end.

Definition UnhandledMethod : APIGatewayProxyResponse :=
  apiResponse http_StatusMethodNotAllowed (PayloadString ErrorMethodNotAllowed).

(** Modelled from the spec: the operation selector of an inbound request.
    The entry point that reads it is not among the source files; the spec
    names four operations and "unrecognized operation" for the rest. *)
Inductive Operation : Type :=
| Fetch
| Create
| Update
| Delete
| Unrecognized (selector : string).

(** Modelled from the spec: the entry point, which maps the operation
    selector to one handler (section 4.2 of the specification). *)
Definition dispatch (rounds : nat) (op : Operation) (req : APIGatewayProxyRequest)
    (tableName : string) (dynaClient : B)
  : option (APIGatewayProxyResponse * B) :=
  match op with
  | Fetch => GetUser rounds req tableName dynaClient
  | Create => Some (CreateUser req tableName dynaClient)
  | Update => Some (UpdateUser req tableName dynaClient)
  | Delete => Some (DeleteUser req tableName dynaClient)
  | Unrecognized _ => Some (UnhandledMethod, dynaClient)
  end.

End WithClient.

End handlers.

(** ** A reference table

    The backend is a collaborator of the repository, not part of it.  To say
    what a call leaves in the store, the development fixes a reference
    backend: one table whose primary key is the string attribute [email],
    answering the five requests the way the DynamoDB documentation describes
    them.  The table name of a request is not inspected. *)
Module memdb.
Import dynamodb.

Definition keyAttribute : string := "email".

(** A table: its records under their key value, and the number of rows a
    scan page holds beyond the first. *)
Record Table : Type := mkTable
  { records : gmap string Item;
    pageExtra : nat }.

Definition with_records (t : Table) (r : gmap string Item) : Table :=
  {| records := r; pageExtra := pageExtra t |}.

(** The key value carried by a record: the key attribute must be a non-empty
    string. *)
Definition item_key (item : Item) : option string :=
  match item !! keyAttribute with
  | Some (AttrS e) => if decide (e = "") then None else Some e
  | _ => None
  end.

(** The key value of a [Key] argument, which must consist of the key
    attribute and nothing else ("the provided key element does not match the
    schema" otherwise). *)
Definition key_of (key : Item) : option string :=
  if decide (dom key = {[ keyAttribute ]}) then item_key key else None.

Definition key_item (e : string) : Item := {[ keyAttribute := AttrS e ]}.

(** Every record is stored under the key value it carries. *)
Definition well_keyed (t : Table) : Prop :=
  map_Forall (λ e item, item_key item = Some e) (records t).

(** [call_argument fn expr] is [a] when [expr] reads [fn(a)]. *)
Definition call_argument (fn expr : string) : option string :=
  let head := fn +:+ "(" in
  let arg :=
    String.substring (String.length head)
      (String.length expr - String.length head - 1) expr in
  if decide (expr = head +:+ arg +:+ ")") then Some arg else None.

Definition has_attribute (a : string) (old : option Item) : bool :=
  match old with
  | Some item => bool_decide (is_Some (item !! a))
  | None => false
  end.

(** Condition expressions: the two existence tests, evaluated on the record
    currently stored under the key of the request.  [None]: not understood. *)
Definition eval_condition (cond : option string) (old : option Item) : option bool :=
  match cond with
  | None => Some true
  | Some expr =>
    match call_argument "attribute_exists" expr with
    | Some a => Some (has_attribute a old)
    | None =>
      match call_argument "attribute_not_exists" expr with
      | Some a => Some (negb (has_attribute a old))
      | None => None
      end
    end
  end.

(** Splitting a string at every occurrence of a non-empty separator. *)
Fixpoint split_go (sep s : string) (skip : nat) (cur : string) : list string :=
  match s with
  | EmptyString => [cur]
  | String c s' =>
    match skip with
    | S n => split_go sep s' n cur
    | 0 =>
      if String.prefix sep s
      then cur :: split_go sep s' (String.length sep - 1) ""
      else split_go sep s' 0 (cur +:+ String c "")
    end
  end.

Definition split (sep s : string) : list string := split_go sep s 0 "".

(** Update expressions: [SET path = :name, ...]. *)
Definition parse_assignment (part : string) : option (string * string) :=
  match split " = " part with
  | [path; name] =>
    if decide (path ≠ "" ∧ String.prefix ":" name = true) then Some (path, name)
    else None
  | _ => None
  end.

Definition parse_set (expr : string) : option (list (string * string)) :=
  if String.prefix "SET " expr
  then mapM parse_assignment
         (split ", " (String.substring 4 (String.length expr - 4) expr))
  else None.

(** Every expression attribute value is named [:x] and is used, every name
    used is defined, and the key attribute is not assigned. *)
Definition resolve (values : Item) (assigns : list (string * string))
  : option (list (string * AttributeValue)) :=
  if decide (set_Forall (λ n, String.prefix ":" n = true ∧ n ∈ assigns.*2)
               (dom values))
  then mapM (λ pn : string * string,
               if decide (pn.1 = keyAttribute) then None
               else (λ v, (pn.1, v)) <$> values !! pn.2) assigns
  else None.

Definition apply_assignments (item : Item) (assigns : list (string * AttributeValue))
  : Item :=
  foldl (λ it pv, <[pv.1 := pv.2]> it) item assigns.

(** The rows that follow the row keyed [e] in scan order. *)
Fixpoint rows_after (e : string) (rows : list (string * Item))
  : list (string * Item) :=
  match rows with
  | [] => []
  | row :: rest => if decide (row.1 = e) then rest else rows_after e rest
  end.

(** Where a scan request starts reading, given the rows [pre] already
    served: at the first row without a start key, after the last row of the
    page before with one. *)
Definition resumes (key : option Item) (pre : list (string * Item)) : Prop :=
  match key with
  | None => pre = []
  | Some k => ∃ pre' row, pre = pre' ++ [row] ∧ k = key_item row.1
  end.

Definition getItem (input : GetItemInput) (t : Table)
  : result awserr GetItemOutput * Table :=
  match key_of (GetItemInput_Key input) with
  | None => (Error ValidationException, t)
  | Some e => (Ok {| GetItemOutput_Item := records t !! e |}, t)
  end.

(** A page holds the next [S (pageExtra t)] rows; it carries the key of its
    last row when rows remain after it. *)
Definition scan (input : ScanInput) (t : Table)
  : result awserr ScanOutput * Table :=
  let all := map_to_list (records t) in
  let start :=
    match ScanInput_ExclusiveStartKey input with
    | None => Some all
    | Some key => (λ e, rows_after e all) <$> key_of key
    end in
  match start with
  | None => (Error ValidationException, t)
  | Some rest =>
    let page := take (S (pageExtra t)) rest in
    (Ok {| ScanOutput_Items := page.*2;
           ScanOutput_LastEvaluatedKey :=
             match drop (S (pageExtra t)) rest with
             | [] => None
             | _ :: _ => (λ row : string * Item, key_item row.1) <$> last page
             end |}, t)
  end.

Definition putItem (input : PutItemInput) (t : Table)
  : result awserr PutItemOutput * Table :=
  match item_key (PutItemInput_Item input) with
  | None => (Error ValidationException, t)
  | Some e =>
    match eval_condition (PutItemInput_ConditionExpression input) (records t !! e) with
    | None => (Error ValidationException, t)
    | Some false => (Error ConditionalCheckFailedException, t)
    | Some true =>
      (Ok {| PutItemOutput_Attributes := None |},
       with_records t (<[e := PutItemInput_Item input]> (records t)))
    end
  end.

Definition updateItem (input : UpdateItemInput) (t : Table)
  : result awserr UpdateItemOutput * Table :=
  match key_of (UpdateItemInput_Key input) with
  | None => (Error ValidationException, t)
  | Some e =>
    let assigns :=
      match UpdateItemInput_UpdateExpression input with
      | None => Some []
      | Some expr => parse_set expr
      end in
    match assigns ≫= resolve (UpdateItemInput_ExpressionAttributeValues input) with
    | None => (Error ValidationException, t)
    | Some assigns =>
      match eval_condition (UpdateItemInput_ConditionExpression input)
              (records t !! e) with
      | None => (Error ValidationException, t)
      | Some false => (Error ConditionalCheckFailedException, t)
      | Some true =>
        let new :=
          apply_assignments (default (key_item e) (records t !! e)) assigns in
        (Ok {| UpdateItemOutput_Attributes :=
                 if decide (UpdateItemInput_ReturnValues input = Some "ALL_NEW")
                 then Some new else None |},
         with_records t (<[e := new]> (records t)))
      end
    end
  end.

Definition deleteItem (input : DeleteItemInput) (t : Table)
  : result awserr DeleteItemOutput * Table :=
  match key_of (DeleteItemInput_Key input) with
  | None => (Error ValidationException, t)
  | Some e =>
    match eval_condition (DeleteItemInput_ConditionExpression input)
            (records t !! e) with
    | None => (Error ValidationException, t)
    | Some false => (Error ConditionalCheckFailedException, t)
    | Some true =>
      (Ok {| DeleteItemOutput_Attributes := None |},
       with_records t (delete e (records t)))
    end
  end.

#[export] Instance Table_client : DynamoDBAPI Table :=
  {| GetItem := getItem;
     Scan := scan;
     PutItem := putItem;
     UpdateItem := updateItem;
     DeleteItem := deleteItem |}.

End memdb.

(** ** A recording client

    A client that forwards every request to a backend and keeps the list of
    requests it was asked to make, the way a test double would.  It is how
    the statements below say which request a function sends. *)
Module spy.
Import dynamodb.

Inductive Call : Type :=
| CallGetItem (input : GetItemInput)
| CallScan (input : ScanInput)
| CallPutItem (input : PutItemInput)
| CallUpdateItem (input : UpdateItemInput)
| CallDeleteItem (input : DeleteItemInput).

Definition forward {B O : Type} (c : Call) (run : B -> result awserr O * B)
    (s : list Call * B) : result awserr O * (list Call * B) :=
  let '(r, b) := run s.2 in (r, (s.1 ++ [c], b)).

#[export] Instance Recorder {B : Type} `{!DynamoDBAPI B}
  : DynamoDBAPI (list Call * B) :=
  {| GetItem input := forward (CallGetItem input) (GetItem input);
     Scan input := forward (CallScan input) (Scan input);
     PutItem input := forward (CallPutItem input) (PutItem input);
     UpdateItem input := forward (CallUpdateItem input) (UpdateItem input);
     DeleteItem input := forward (CallDeleteItem input) (DeleteItem input) |}.

End spy.

(** ** Reference instances of the library calls

    Executable stand-ins for [encoding/json] and [net/mail] on the fragment
    of their input the scenarios of the specification use.  The general
    results quantify over every instance of [GoStd] and [Marshaler]; these
    instances serve to run the code on concrete requests. *)
Module fragment.
Import user handlers.

Definition quote : ascii := "034"%char.

(** [quoted s] is [s] between double quotes. *)
Definition quoted (s : string) : string :=
  String quote s +:+ String quote "".

Inductive token : Type :=
| TLBrace
| TRBrace
| TColon
| TComma
| TString (s : string)
| TNull.

Inductive lexmode : Type :=
| LexTop
| LexString (acc : string)
| LexSkip (n : nat).

Definition is_space (c : ascii) : bool :=
  bool_decide (c ∈ [" "%char; "009"%char; "010"%char; "013"%char]).

(** Tokens of a flat JSON object.  String literals are taken verbatim: an
    escape sequence or a control character is outside the fragment. *)
Fixpoint lex (s : string) (mode : lexmode) : option (list token) :=
  match s with
  | EmptyString => match mode with LexTop => Some [] | _ => None end
  | String c s' =>
    match mode with
    | LexString acc =>
      if decide (c = quote) then cons (TString acc) <$> lex s' LexTop
      else if decide (c = "\"%char) then None
      else if (Ascii.nat_of_ascii c <? 32)%nat then None
      else lex s' (LexString (acc +:+ String c ""))
    | LexSkip (S (S n)) => lex s' (LexSkip (S n))
    | LexSkip _ => lex s' LexTop
    | LexTop =>
      if is_space c then lex s' LexTop
      else if decide (c = "{"%char) then cons TLBrace <$> lex s' LexTop
      else if decide (c = "}"%char) then cons TRBrace <$> lex s' LexTop
      else if decide (c = ":"%char) then cons TColon <$> lex s' LexTop
      else if decide (c = ","%char) then cons TComma <$> lex s' LexTop
      else if decide (c = quote) then lex s' (LexString "")
      else if String.prefix "null" s then cons TNull <$> lex s' (LexSkip 3)
      else None
    end
  end.

(** Storing one member into the struct: the three tagged fields take a
    string, [null] leaves a field alone, other names are ignored. *)
Definition set_field (name : string) (value : token) (v : User) : option User :=
  match value with
  | TNull => Some v
  | TString s =>
    if decide (name = "email") then Some (mkUser s (FirstName v) (LastName v))
    else if decide (name = "firstName") then Some (mkUser (Email v) s (LastName v))
    else if decide (name = "lastName") then Some (mkUser (Email v) (FirstName v) s)
    else Some v
  | _ => None
  end.

Fixpoint more_members (ts : list token) (v : User) : option User :=
  match ts with
  | [TRBrace] => Some v
  | TComma :: TString name :: TColon :: value :: rest =>
    match set_field name value v with
    | Some v => more_members rest v
    | None => None
    end
  | _ => None
  end.

Definition parse_object (ts : list token) (v : User) : option User :=
  match ts with
  | [TLBrace; TRBrace] => Some v
  | TLBrace :: TString name :: TColon :: value :: rest =>
    match set_field name value v with
    | Some v => more_members rest v
    | None => None
    end
  | _ => None
  end.

Definition flat_Unmarshal (data : string) (v : User) : option User :=
  match lex data LexTop with
  | Some ts => parse_object ts v
  | None => None
  end.

(** The characters of an RFC 5322 atom. *)
Definition is_atext (c : ascii) : bool :=
  let n := Ascii.nat_of_ascii c in
  ((48 <=? n) && (n <=? 57) || (65 <=? n) && (n <=? 90)
   || (97 <=? n) && (n <=? 122))%nat
  || bool_decide (c ∈ String.list_ascii_of_string "!#$%&'*+-/=?^_`{|}~").

Definition is_atom (s : string) : bool :=
  bool_decide (s ≠ "") && forallb is_atext (String.list_ascii_of_string s).

Definition is_dot_atom (s : string) : bool :=
  forallb is_atom (memdb.split "." s).

(** Bare addresses [local@domain] with dot-atom parts.  [net/mail] accepts
    these, and more (display names, quoted local parts, comments). *)
Definition addr_spec (s : string) : bool :=
  match memdb.split "@" s with
  | [loc; domain] => is_dot_atom loc && is_dot_atom domain
  | _ => false
  end.

#[export] Instance flat_GoStd : GoStd :=
  {| json_Unmarshal := flat_Unmarshal;
     mail_ParseAddress := addr_spec;
     mail_ParseAddress_empty := eq_refl |}.

(** Encoding of the response payloads, strings written verbatim between
    quotes. *)
Definition member (name value : string) : string :=
  quoted name +:+ ":" +:+ value.

Definition encode_User (u : User) : string :=
  "{" +:+ member "email" (quoted (Email u)) +:+ ","
  +:+ member "firstName" (quoted (FirstName u)) +:+ ","
  +:+ member "lastName" (quoted (LastName u)) +:+ "}".

Definition plain_Marshal (p : Payload) : string :=
  match p with
  | PayloadUser u => encode_User u
  | PayloadUsers us => "[" +:+ strings_Join (encode_User <$> us) "," +:+ "]"
  | PayloadError (mkErrorBody (Some msg)) => "{" +:+ member "error" (quoted msg) +:+ "}"
  | PayloadError (mkErrorBody None) => "{}"
  | PayloadString s => quoted s
  | PayloadNil => "null"
  end.

#[export] Instance plain_Marshaler : Marshaler :=
  {| json_Marshal := plain_Marshal |}.

(** A request carrying only a body, and one carrying only an [email] path
    parameter. *)
Definition body_request (body : string) : APIGatewayProxyRequest :=
  {| Request_PathParameters := ∅; Request_Body := body |}.

Definition email_request (email : string) : APIGatewayProxyRequest :=
  {| Request_PathParameters := {[ "email" := email ]}; Request_Body := "" |}.

(** The body [{"email":e}] and the body [{"email":e,"firstName":f}]. *)
Definition email_body (e : string) : string :=
  "{" +:+ member "email" (quoted e) +:+ "}".

Definition named_body (e f : string) : string :=
  "{" +:+ member "email" (quoted e) +:+ ","
  +:+ member "firstName" (quoted f) +:+ "}".

Definition empty_table (extra : nat) : memdb.Table :=
  {| memdb.records := ∅; memdb.pageExtra := extra |}.

(** The table holding the records of the given users. *)
Definition table_of (extra : nat) (us : list User) : memdb.Table :=
  {| memdb.records := list_to_map ((λ u, (Email u, encodeStruct u)) <$> us);
     memdb.pageExtra := extra |}.

Definition alice : User := mkUser "a@x.com" "A" "".
Definition bob : User := mkUser "b@x.com" "B" "Builder".
Definition carol : User := mkUser "c@x.com" "" "C".

End fragment.

(** ** A scripted client

    A client that answers from a list of prepared replies, one a request, the
    way a mock would: a request takes the reply at the head of the list when
    it is of its kind, and fails with [RequestFailure] otherwise.  It serves
    to run the code against answers the reference table never gives. *)
Module scripted.
Import dynamodb.

Inductive Reply : Type :=
| ReplyGetItem (r : result awserr GetItemOutput)
| ReplyScan (r : result awserr ScanOutput)
| ReplyPutItem (r : result awserr PutItemOutput)
| ReplyUpdateItem (r : result awserr UpdateItemOutput)
| ReplyDeleteItem (r : result awserr DeleteItemOutput).

Definition unexpected {O : Type} : result awserr O :=
  Error (RequestFailure "unexpected request").

Definition answer {O : Type} (pick : Reply -> option (result awserr O))
    (script : list Reply) : result awserr O * list Reply :=
  match script with
  | [] => (unexpected, [])
  | reply :: rest =>
    match pick reply with
    | Some r => (r, rest)
    | None => (unexpected, rest)
    end
  end.

#[export] Instance Script_client : DynamoDBAPI (list Reply) :=
  {| GetItem _ :=
       answer (λ reply, match reply with ReplyGetItem r => Some r | _ => None end);
     Scan _ :=
       answer (λ reply, match reply with ReplyScan r => Some r | _ => None end);
     PutItem _ :=
       answer (λ reply, match reply with ReplyPutItem r => Some r | _ => None end);
     UpdateItem _ :=
       answer (λ reply, match reply with ReplyUpdateItem r => Some r | _ => None end);
     DeleteItem _ :=
       answer (λ reply, match reply with ReplyDeleteItem r => Some r | _ => None end) |}.

End scripted.

(** ** Scans that stop short *)
Section ScanPrefix.
Context {B : Type} `{!dynamodb.DynamoDBAPI B}.
Import dynamodb.


End ScanPrefix.

(** The recorded requests that read a page of a scan. *)
Definition is_scan (c : spy.Call) : Prop :=
  match c with
  | spy.CallScan _ => True
  | _ => False
  end.

(** * Properties *)

Import dynamodb user spy.

(** ** The attribute conversion of [User] *)
Section Marshalling.

Lemma encodeStruct_email (u : User) :
  encodeStruct u !! "email" = Some (encodeString (Email u)).
Proof. unfold encodeStruct. by simplify_map_eq. Qed.

Lemma encodeStruct_firstName (u : User) :
  encodeStruct u !! "firstName" = Some (encodeString (FirstName u)).
Proof. unfold encodeStruct. by simplify_map_eq. Qed.

Lemma encodeStruct_lastName (u : User) :
  encodeStruct u !! "lastName" = Some (encodeString (LastName u)).
Proof. unfold encodeStruct. by simplify_map_eq. Qed.

Lemma encodeStruct_dom (u : User) :
  dom (encodeStruct u) = ({[ "email"; "firstName"; "lastName" ]} : gset string).
Proof. unfold encodeStruct. rewrite !dom_insert_L, dom_empty_L. set_solver. Qed.

Lemma decodeField_encodeString (s old : string) :
  decodeField (Some (encodeString s)) old = Ok s.
Proof. unfold encodeString. case_decide; by subst. Qed.

(** Decoding what was encoded gives the struct back, whatever the target
    held before. *)
Lemma UnmarshalMap_encodeStruct (u out : User) :
  UnmarshalMap (Some (encodeStruct u)) out = Ok u.
Proof.
  unfold UnmarshalMap.
  rewrite encodeStruct_email, encodeStruct_firstName, encodeStruct_lastName.
  rewrite !decodeField_encodeString. by destruct u.
Qed.

Lemma UnmarshalListOfMaps_encodeStruct (us : list User) :
  UnmarshalListOfMaps (encodeStruct <$> us) = Ok us.
Proof.
  induction us as [|u us IH]; [done|].
  rewrite fmap_cons. cbn [UnmarshalListOfMaps].
  by rewrite UnmarshalMap_encodeStruct, IH.
Qed.

End Marshalling.

(** ** Statements that hold for every backend *)
Section AnyBackend.
Context {B : Type} `{!DynamoDBAPI B} `{!GoStd}.

(** What the recording client adds around a call of the backend. *)
Lemma forward_eq {O : Type} (c : Call) (run : B -> result awserr O * B)
    (log : list Call) (b : B) :
  forward c run (log, b) = ((run b).1, (log ++ [c], (run b).2)).
Proof. unfold forward. simpl. by destruct (run b). Qed.

(** The request [UpdateUser] sends, and nothing else, reaches the store. *)
Lemma UpdateUser_recorded (req : APIGatewayProxyRequest) (tableName : string)
    (log : list Call) (b : B) (u : User) :
  json_Unmarshal (Request_Body req) zero_User = Some u ->
  (UpdateUser req tableName (log, b)).2.1
  = log ++ [CallUpdateItem (UpdateUser_input tableName u (encodeStruct u))].
Proof.
  intros Hu. unfold UpdateUser. rewrite Hu. cbn [MarshalMap].
  cbn [UpdateItem Recorder]. rewrite forward_eq.
  destruct (UpdateItem _ b) as [[out|[| |code]] b1]; cbn; [|done..].
  by destruct (UnmarshalMap _ u).
Qed.

(** The request [DeleteUser] sends, and nothing else, reaches the store. *)
Lemma DeleteUser_recorded (req : APIGatewayProxyRequest) (tableName : string)
    (log : list Call) (b : B) (u : User) :
  json_Unmarshal (Request_Body req) zero_User = Some u ->
  (DeleteUser req tableName (log, b)).2.1
  = log ++ [CallDeleteItem (DeleteUser_input tableName (encodeStruct u))].
Proof.
  intros Hu. unfold DeleteUser. rewrite Hu. cbn [MarshalMap].
  cbn [DeleteItem Recorder]. rewrite forward_eq.
  by destruct (DeleteItem _ b) as [[out|[| |code]] b1].
Qed.

(** C1, on the code: when the parsed body has a non-empty [firstName], the
    update expression [UpdateUser] sends assigns an attribute called
    [fieldName] from a value called [:fieldName]; it has no part for
    [firstName].  The part for a non-empty [lastName] is as claimed. *)
Theorem UpdateUser_expression_fieldName (req : APIGatewayProxyRequest)
    (tableName : string) (log : list Call) (b : B) (u : User) :
  json_Unmarshal (Request_Body req) zero_User = Some u ->
  FirstName u ≠ "" ->
  ∃ input : UpdateItemInput,
    (UpdateUser req tableName (log, b)).2.1 = log ++ [CallUpdateItem input]
    ∧ UpdateItemInput_UpdateExpression input
      = Some ("SET fieldName = :fieldName"
              +:+ (if decide (LastName u = "") then ""
                   else ", lastName = :lastName"))
    ∧ updateExpressionPart "firstName" ∉ UpdateUser_updates u.
Proof.
  intros Hu Hfirst. eexists. split; [by apply UpdateUser_recorded|].
  unfold UpdateUser_input, UpdateUser_updates; cbn.
  destruct (decide (FirstName u = "")) as [|_]; [done|].
  destruct (decide (LastName u = "")); cbn.
  - split; [done|]. by intros ?%list_elem_of_singleton.
  - split; [done|]. rewrite !elem_of_cons, elem_of_nil.
    by intros [|[|[]]].
Qed.

(** C2, on the code: when the backend answers the get with no item,
    [FetchUser] does not fail: it returns, with no error, the [User] whose
    three fields are empty.  Nothing in the function looks at whether an
    item came back. *)
Theorem FetchUser_absent_zero_User (email tableName : string) (b b' : B) :
  GetItem {| GetItemInput_TableName := tableName;
             GetItemInput_Key := {[ "email" := AttrS email ]} |} b
  = (Ok {| GetItemOutput_Item := None |}, b') ->
  FetchUser email tableName b = (Ok zero_User, b').
Proof. intros Hget. unfold FetchUser. by rewrite Hget. Qed.

(** C6: a body that parses as a [User] whose email [mail.ParseAddress]
    rejects makes [CreateUser] fail with "invalid email"; the backend is
    left as it was, and a recording client shows that no request reached
    it. *)
Theorem CreateUser_invalid_email (req : APIGatewayProxyRequest)
    (tableName : string) (b : B) (u : User) :
  json_Unmarshal (Request_Body req) zero_User = Some u ->
  mail_ParseAddress (Email u) = false ->
  CreateUser req tableName b = (Error ErrorInvalidEmail, b)
  ∧ ∀ log : list Call,
      CreateUser req tableName (log, b) = (Error ErrorInvalidEmail, (log, b)).
Proof.
  intros Hu Hmail. unfold CreateUser. rewrite Hu, Hmail. by cbn.
Qed.

(** C10: for an update and for a delete alike, the [Key] of the request is
    the whole attribute map of the parsed body.  It has the three attributes
    [email], [firstName] and [lastName], each encoding the field of that
    name, so it is never the map of the [email] attribute alone. *)
Theorem Update_Delete_key_is_marshaled_body (req : APIGatewayProxyRequest)
    (tableName : string) (log : list Call) (b : B) (u : User) :
  json_Unmarshal (Request_Body req) zero_User = Some u ->
  ∃ (item : Item) (upd : UpdateItemInput) (del : DeleteItemInput),
    MarshalMap u = Ok item
    ∧ (UpdateUser req tableName (log, b)).2.1 = log ++ [CallUpdateItem upd]
    ∧ UpdateItemInput_Key upd = item
    ∧ (DeleteUser req tableName (log, b)).2.1 = log ++ [CallDeleteItem del]
    ∧ DeleteItemInput_Key del = item
    ∧ dom item = ({[ "email"; "firstName"; "lastName" ]} : gset string)
    ∧ item !! "email" = Some (encodeString (Email u))
    ∧ item !! "firstName" = Some (encodeString (FirstName u))
    ∧ item !! "lastName" = Some (encodeString (LastName u))
    ∧ ∀ av : AttributeValue, item ≠ {[ "email" := av ]}.
Proof.
  intros Hu. exists (encodeStruct u). do 2 eexists.
  split; [done|].
  split; [by apply UpdateUser_recorded|]. split; [done|].
  split; [by apply DeleteUser_recorded|]. split; [done|].
  split; [apply encodeStruct_dom|].
  split; [apply encodeStruct_email|].
  split; [apply encodeStruct_firstName|].
  split; [apply encodeStruct_lastName|].
  intros av Heq.
  pose proof (encodeStruct_firstName u) as Hf.
  rewrite Heq in Hf. by simplify_map_eq.
Qed.

End AnyBackend.

(** ** Statements about the reference table *)
Section OnTable.
Context `{!GoStd}.
Import memdb.

Lemma key_of_key_item (e : string) : e ≠ "" -> key_of (key_item e) = Some e.
Proof.
  intros He. unfold key_of, key_item.
  rewrite dom_singleton_L, decide_True by done.
  unfold item_key. rewrite lookup_singleton_eq. by rewrite decide_False.
Qed.

(** The attribute map of a whole [User] is not a key of the table: it has
    attributes the key schema does not. *)
Lemma key_of_encodeStruct (u : User) : key_of (encodeStruct u) = None.
Proof.
  unfold key_of. rewrite encodeStruct_dom, decide_False; [done|].
  intros Heq. assert ("firstName" ∈ ({[ keyAttribute ]} : gset string)) as Hin.
  { rewrite <- Heq. set_solver. }
  by apply elem_of_singleton in Hin.
Qed.

Lemma item_key_encodeStruct (u : User) :
  Email u ≠ "" -> item_key (encodeStruct u) = Some (Email u).
Proof.
  intros He. unfold item_key, keyAttribute. rewrite encodeStruct_email.
  unfold encodeString. by rewrite !decide_False.
Qed.

Lemma has_email_encodeStruct (u : User) :
  has_attribute "email" (Some (encodeStruct u)) = true.
Proof.
  unfold has_attribute. rewrite encodeStruct_email. by apply bool_decide_eq_true.
Qed.

Lemma eval_attribute_exists (old : option Item) :
  eval_condition (Some "attribute_exists(email)") old
  = Some (has_attribute "email" old).
Proof. reflexivity. Qed.

Lemma eval_attribute_not_exists (old : option Item) :
  eval_condition (Some "attribute_not_exists(email)") old
  = Some (negb (has_attribute "email" old)).
Proof. reflexivity. Qed.

(** An address [mail.ParseAddress] accepts is not the empty string. *)
Lemma ParseAddress_nonempty (s : string) : mail_ParseAddress s = true -> s ≠ "".
Proof. intros Hs ->. by rewrite mail_ParseAddress_empty in Hs. Qed.

(** What [CreateUser] does on the table, by the record found under the
    email of a well-formed user. *)
Lemma CreateUser_on_table (req : APIGatewayProxyRequest) (tableName : string)
    (t : Table) (u : User) :
  json_Unmarshal (Request_Body req) zero_User = Some u ->
  mail_ParseAddress (Email u) = true ->
  CreateUser req tableName t
  = if has_attribute "email" (records t !! Email u)
    then (Error ErrorUserAlreadyExists, t)
    else (Ok u, with_records t (<[Email u := encodeStruct u]> (records t))).
Proof.
  intros Hu Hmail. unfold CreateUser. rewrite Hu, Hmail.
  cbn [negb MarshalMap PutItem Table_client]. unfold putItem, CreateUser_input.
  cbn [PutItemInput_Item PutItemInput_ConditionExpression].
  rewrite item_key_encodeStruct by by apply ParseAddress_nonempty.
  rewrite eval_attribute_not_exists.
  by destruct (has_attribute "email" (records t !! Email u)).
Qed.

(** The reference table does delete on a well-formed request: given the key
    of a stored record that carries its key attribute, the conditional
    delete removes the record; with nothing stored under the key, it fails
    the condition and changes nothing. *)
Lemma deleteItem_by_key (tableName e : string) (t : Table) :
  e ≠ "" ->
  deleteItem (DeleteUser_input tableName (key_item e)) t
  = if has_attribute "email" (records t !! e)
    then (Ok {| DeleteItemOutput_Attributes := None |},
          with_records t (delete e (records t)))
    else (Error ConditionalCheckFailedException, t).
Proof.
  intros He. unfold deleteItem, DeleteUser_input.
  cbn [DeleteItemInput_Key DeleteItemInput_ConditionExpression].
  rewrite key_of_key_item, eval_attribute_exists by done.
  by destruct (has_attribute "email" (records t !! e)).
Qed.

(** What [FetchUser] returns from the table for a non-empty email: the
    decoded record when there is one, and the zero [User] when there is
    none. *)
Lemma FetchUser_on_table (email tableName : string) (t : Table) :
  email ≠ "" ->
  FetchUser email tableName t
  = match UnmarshalMap (records t !! email) zero_User with
    | Ok u => (Ok u, t)
    | Error _ => (Error ErrorFailedToUnmarshalRecord, t)
    end.
Proof.
  intros He. unfold FetchUser. cbn [GetItem Table_client]. unfold getItem.
  cbn [GetItemInput_Key]. change {[ "email" := AttrS email ]} with (key_item email).
  by rewrite key_of_key_item.
Qed.

Lemma FetchUser_absent_on_table (email tableName : string) (t : Table) :
  email ≠ "" ->
  records t !! email = None ->
  FetchUser email tableName t = (Ok zero_User, t).
Proof. intros He Hnone. by rewrite FetchUser_on_table, Hnone. Qed.

(** C3: for a user with a well-formed email and no record under it, creating
    the user from a body that parses as it succeeds and returns it, and
    fetching by that email afterwards returns the same user. *)
Theorem CreateUser_then_FetchUser (req : APIGatewayProxyRequest)
    (tableName : string) (t : Table) (u : User) :
  json_Unmarshal (Request_Body req) zero_User = Some u ->
  mail_ParseAddress (Email u) = true ->
  records t !! Email u = None ->
  ∃ t' : Table,
    CreateUser req tableName t = (Ok u, t')
    ∧ records t' = <[Email u := encodeStruct u]> (records t)
    ∧ FetchUser (Email u) tableName t' = (Ok u, t').
Proof.
  intros Hu Hmail Hnone. eexists. split; [|split].
  - rewrite (CreateUser_on_table _ _ _ u) by done. by rewrite Hnone.
  - done.
  - rewrite FetchUser_on_table by by apply ParseAddress_nonempty.
    cbn [records with_records].
    by rewrite lookup_insert_eq, UnmarshalMap_encodeStruct.
Qed.

(** A create request that succeeds carried an address the parser accepts. *)
Lemma CreateUser_Ok_ParseAddress (req : APIGatewayProxyRequest)
    (tableName : string) (t t1 : Table) (u created : User) :
  json_Unmarshal (Request_Body req) zero_User = Some u ->
  CreateUser req tableName t = (Ok created, t1) ->
  mail_ParseAddress (Email u) = true.
Proof.
  intros Hu. unfold CreateUser. rewrite Hu.
  by destruct (mail_ParseAddress (Email u)).
Qed.

(** C5: two create requests for the same email, one after the other, the
    first of which succeeds and so writes a record.  The second fails with
    "user already exists" and leaves the table as the first call left it:
    the record under the email is still the one the first call wrote. *)
Theorem CreateUser_twice (req req' : APIGatewayProxyRequest)
    (tableName : string) (t t1 : Table) (u u' created : User) :
  json_Unmarshal (Request_Body req) zero_User = Some u ->
  json_Unmarshal (Request_Body req') zero_User = Some u' ->
  Email u' = Email u ->
  CreateUser req tableName t = (Ok created, t1) ->
  created = u
  ∧ records t1 !! Email u = Some (encodeStruct u)
  ∧ CreateUser req' tableName t1 = (Error ErrorUserAlreadyExists, t1).
Proof.
  intros Hu Hu' Hsame Hfirst.
  pose proof (CreateUser_Ok_ParseAddress _ _ _ _ _ _ Hu Hfirst) as Hmail.
  rewrite (CreateUser_on_table _ _ _ u) in Hfirst by done.
  rewrite (CreateUser_on_table _ _ _ u') by (by rewrite ?Hsame).
  rewrite Hsame.
  destruct (has_attribute "email" (records t !! Email u)); [done|].
  inversion Hfirst; subst; clear Hfirst. cbn [records with_records].
  by rewrite lookup_insert_eq, has_email_encodeStruct.
Qed.

(** C7, on the code: [DeleteUser] sends the attribute map of the whole body
    as the key, which the table rejects as not matching its key schema;
    so every delete request whose body parses fails with "could not delete
    item" and leaves the table as it was, whether or not a record exists
    under the email. *)
Theorem DeleteUser_never_deletes (req : APIGatewayProxyRequest)
    (tableName : string) (t : Table) (u : User) :
  json_Unmarshal (Request_Body req) zero_User = Some u ->
  DeleteUser req tableName t = (Some ErrorCouldNotDeleteItem, t).
Proof.
  intros Hu. unfold DeleteUser. rewrite Hu.
  cbn [MarshalMap DeleteItem Table_client]. unfold deleteItem, DeleteUser_input.
  cbn [DeleteItemInput_Key]. by rewrite key_of_encodeStruct.
Qed.

(** X16: the same key reaches the table from [UpdateUser], with the same
    fate: the request is rejected before any condition is looked at, so
    every update request whose body parses fails with "could not put item"
    and changes nothing. *)
Lemma UpdateUser_never_updates (req : APIGatewayProxyRequest)
    (tableName : string) (t : Table) (u : User) :
  json_Unmarshal (Request_Body req) zero_User = Some u ->
  UpdateUser req tableName t = (Error ErrorCouldNotPutItem, t).
Proof.
  intros Hu. unfold UpdateUser. rewrite Hu.
  cbn [MarshalMap UpdateItem Table_client]. unfold updateItem, UpdateUser_input.
  cbn [UpdateItemInput_Key]. by rewrite key_of_encodeStruct.
Qed.

End OnTable.

(** ** The paged scan of [FetchUsers] *)
Section ScanLoop.
Context {B : Type} `{!DynamoDBAPI B}.

Lemma UnmarshalListOfMaps_app (l1 l2 : list Item) :
  UnmarshalListOfMaps (l1 ++ l2)
  = match UnmarshalListOfMaps l1 with
    | Error e => Error e
    | Ok us1 =>
      match UnmarshalListOfMaps l2 with
      | Error e => Error e
      | Ok us2 => Ok (us1 ++ us2)
      end
    end.
Proof.
  induction l1 as [|m l1 IH]; cbn [app UnmarshalListOfMaps].
  - by destruct (UnmarshalListOfMaps l2).
  - destruct (UnmarshalMap (Some m) zero_User); [|done].
    rewrite IH. destruct (UnmarshalListOfMaps l1); [|done].
    by destruct (UnmarshalListOfMaps l2).
Qed.

(** Users decoded from the concatenation of the pages are the users decoded
    page by page, concatenated. *)
Lemma UnmarshalListOfMaps_concat (pages : list (list Item)) (us : list User) :
  UnmarshalListOfMaps (concat pages) = Ok us ->
  ∃ decoded : list (list User),
    Forall2 (λ page users, UnmarshalListOfMaps page = Ok users) pages decoded
    ∧ us = concat decoded.
Proof.
  revert us. induction pages as [|page pages IH]; intros us; cbn [concat].
  - intros [= <-]. by exists [].
  - rewrite UnmarshalListOfMaps_app.
    destruct (UnmarshalListOfMaps page) as [us1|] eqn:H1; [|done].
    destruct (UnmarshalListOfMaps (concat pages)) as [us2|] eqn:H2; [|done].
    intros [= <-]. destruct (IH us2 eq_refl) as (decoded & Hall & ->).
    exists (us1 :: decoded). split; [by constructor|done].
Qed.

(** The loop consumes a run of replies: it appends the users of each page
    in turn and stops at the reply without a continuation key. *)
Lemma FetchUsers_loop_scan_run (tableName : string) (key : option Item)
    (b b' : B) (outs : list ScanOutput) :
  scan_run tableName key b outs b' ->
  ∀ (decoded : list (list User)) (rounds : nat) (users : list User),
    Forall2 (λ out page, UnmarshalListOfMaps (ScanOutput_Items out) = Ok page)
      outs decoded ->
    (length outs ≤ rounds)%nat ->
    FetchUsers_loop rounds
      {| ScanInput_TableName := tableName; ScanInput_ExclusiveStartKey := key |}
      users b
    = Some (Ok (users ++ concat decoded), b').
Proof.
  induction 1 as [key b out b' Hscan Hlast
                 |key b out next b1 outs b' Hscan Hnext Hrun IH];
    intros decoded rounds users Hdec Hrounds.
  - apply Forall2_cons_inv_l in Hdec as (page & rest & Hpage & Hrest & ->).
    apply Forall2_nil_inv_l in Hrest as ->.
    destruct rounds as [|rounds]; [cbn in Hrounds; lia|].
    cbn [FetchUsers_loop]. rewrite Hscan, Hpage, Hlast.
    cbn [concat]. by rewrite app_nil_r.
  - apply Forall2_cons_inv_l in Hdec as (page & rest & Hpage & Hrest & ->).
    destruct rounds as [|rounds]; [cbn in Hrounds; lia|].
    cbn [FetchUsers_loop]. rewrite Hscan, Hpage, Hnext.
    cbn [ScanInput_TableName].
    rewrite (IH rest rounds (users ++ page) Hrest) by (cbn in Hrounds; lia).
    cbn [concat]. by rewrite app_assoc.
Qed.

(** Behind a recording client the same run of replies is obtained, and the
    record grows by the scan requests that carry the continuation keys. *)
Lemma scan_run_recorded (tableName : string) (key : option Item)
    (b b' : B) (outs : list ScanOutput) :
  scan_run tableName key b outs b' ->
  ∀ log : list Call,
    scan_run tableName key (log, b) outs
      (log ++ (CallScan <$> scan_requests tableName key outs), b').
Proof.
  induction 1 as [key b out b' Hscan Hlast
                 |key b out next b1 outs b' Hscan Hnext Hrun IH]; intros log.
  - apply scan_run_last; [|done].
    cbn [Scan Recorder]. unfold forward. cbn [fst snd]. by rewrite Hscan.
  - set (c := CallScan {| ScanInput_TableName := tableName;
                          ScanInput_ExclusiveStartKey := key |}).
    apply scan_run_more with (next := next) (b1 := (log ++ [c], b1)); [|done|].
    + cbn [Scan Recorder]. unfold forward. cbn [fst snd].
      by rewrite Hscan.
    + cbn [scan_requests]. rewrite Hnext, fmap_cons. fold c.
      set (rest := CallScan <$> scan_requests tableName (Some next) outs).
      replace (log ++ c :: rest) with ((log ++ [c]) ++ rest)
        by (by rewrite <- app_assoc).
      apply IH.
Qed.

End ScanLoop.

Section FetchAll.
Context {B : Type} `{!DynamoDBAPI B}.

(** C4: let the backend serve the table as any run of pages [outs] (each
    request after the first carrying the continuation key of the page
    before, the last page carrying none), and let the pages together hold
    the records of the users [stored], each once.  Given at least as many
    rounds as pages, [FetchUsers] returns the users of the pages
    concatenated in page order, which are the stored users, none twice and
    none missing; and the requests it sends are the scan requests of that
    run, in order. *)
Theorem FetchUsers_all_pages (tableName : string) (b b' : B)
    (outs : list ScanOutput) (stored : list User) (rounds : nat) :
  scan_run tableName None b outs b' ->
  concat (ScanOutput_Items <$> outs) ≡ₚ encodeStruct <$> stored ->
  (length outs ≤ rounds)%nat ->
  ∃ (us : list User) (decoded : list (list User)),
    FetchUsers rounds tableName b = Some (Ok us, b')
    ∧ Forall2 (λ out page, UnmarshalListOfMaps (ScanOutput_Items out) = Ok page)
        outs decoded
    ∧ us = concat decoded
    ∧ us ≡ₚ stored
    ∧ ∀ log : list Call,
        FetchUsers rounds tableName (log, b)
        = Some (Ok us,
                (log ++ (CallScan <$> scan_requests tableName None outs), b')).
Proof.
  intros Hrun Hperm Hrounds.
  apply Permutation_map_inv in Hperm as (us & Hitems & Hus). symmetry in Hus.
  assert (UnmarshalListOfMaps (concat (ScanOutput_Items <$> outs)) = Ok us)
    as Hdec by (rewrite Hitems; apply UnmarshalListOfMaps_encodeStruct).
  apply UnmarshalListOfMaps_concat in Hdec as (decoded & Hall & ->).
  apply Forall2_fmap_l in Hall.
  exists (concat decoded), decoded. repeat split; try done.
  - unfold FetchUsers.
    by rewrite (FetchUsers_loop_scan_run _ _ _ _ _ Hrun decoded).
  - intros log. unfold FetchUsers.
    by rewrite (FetchUsers_loop_scan_run _ _ _ _ _
                  (scan_run_recorded _ _ _ _ _ Hrun log) decoded).
Qed.

End FetchAll.

(** ** The reference table serves every scan *)
Section TableScan.
Import memdb.

Lemma item_key_nonempty (item : Item) (e : string) :
  item_key item = Some e -> e ≠ "".
Proof.
  unfold item_key. destruct (item !! keyAttribute) as [[s| |]|]; try done.
  case_decide; [done|]. by intros [= <-].
Qed.

Lemma rows_after_middle (pre rest : list (string * Item)) (row : string * Item) :
  row.1 ∉ pre.*1 -> rows_after row.1 (pre ++ row :: rest) = rest.
Proof.
  induction pre as [|r pre IH]; intros Hnotin; cbn [app rows_after].
  - by rewrite decide_True.
  - rewrite fmap_cons, not_elem_of_cons in Hnotin. destruct Hnotin as [Hne Hpre].
    rewrite decide_False by done. by apply IH.
Qed.

Lemma scan_at (tableName : string) (t : Table) (key : option Item)
    (pre rest : list (string * Item)) :
  well_keyed t ->
  map_to_list (records t) = pre ++ rest ->
  resumes key pre ->
  scan {| ScanInput_TableName := tableName;
          ScanInput_ExclusiveStartKey := key |} t
  = (Ok {| ScanOutput_Items := (take (S (pageExtra t)) rest).*2;
           ScanOutput_LastEvaluatedKey :=
             match drop (S (pageExtra t)) rest with
             | [] => None
             | _ :: _ =>
               (λ row : string * Item, key_item row.1)
                 <$> last (take (S (pageExtra t)) rest)
             end |}, t).
Proof.
  intros Hwf Hrows Hkey. unfold scan. cbn [ScanInput_ExclusiveStartKey].
  destruct key as [k|]; cbn [resumes] in Hkey.
  - destruct Hkey as (pre' & row & -> & ->).
    assert (row ∈ map_to_list (records t)) as Hin.
    { rewrite Hrows. set_solver. }
    destruct row as [e item]. apply elem_of_map_to_list in Hin.
    apply Hwf in Hin. cbn [fst] in *.
    rewrite key_of_key_item by by eapply item_key_nonempty.
    cbn [fmap option_fmap option_map]. rewrite Hrows, <- app_assoc.
    cbn [app]. pose proof (rows_after_middle pre' rest (e, item)) as Hafter.
    cbn [fst] in Hafter. rewrite Hafter; [done|].
    pose proof (NoDup_fst_map_to_list (records t)) as Hnodup.
    rewrite Hrows, <- app_assoc, fmap_app in Hnodup.
    apply NoDup_app in Hnodup as (_ & Hdisj & _).
    intros Hpre. apply (Hdisj e Hpre). cbn. constructor.
  - subst pre. by rewrite Hrows.
Qed.

(** From any point of the table on, the scan requests form a run whose
    pages hold the remaining rows, in order. *)
Lemma table_scan_run (tableName : string) (t : Table) :
  well_keyed t ->
  ∀ (n : nat) (rest pre : list (string * Item)) (key : option Item),
    (length rest ≤ n)%nat ->
    map_to_list (records t) = pre ++ rest ->
    resumes key pre ->
    ∃ outs : list ScanOutput,
      scan_run tableName key t outs t
      ∧ concat (ScanOutput_Items <$> outs) = rest.*2
      ∧ (length outs ≤ S (length rest))%nat.
Proof.
  intros Hwf. induction n as [|n IH]; intros rest pre key Hlen Hrows Hkey.
  - destruct rest; [|cbn in Hlen; lia].
    eexists [_]. split; [|split].
    + apply scan_run_last; [by apply (scan_at _ _ _ pre [])|done].
    + done.
    + cbn. lia.
  - pose proof (scan_at tableName t key pre rest Hwf Hrows Hkey) as Hscan.
    destruct (drop (S (pageExtra t)) rest) as [|r more] eqn:Hdrop.
    + eexists [_]. split; [by apply scan_run_last with (1 := Hscan)|].
      split; [|cbn; lia].
      cbn. rewrite app_nil_r.
      pose proof (take_drop (S (pageExtra t)) rest) as Htd.
      rewrite Hdrop, app_nil_r in Htd. by rewrite Htd.
    + destruct rest as [|r0 rest0]; [done|].
      destruct (last_is_Some (take (S (pageExtra t)) (r0 :: rest0))) as [_ Hl].
      destruct Hl as [row Hlast]; [done|].
      rewrite Hlast in Hscan. cbn [fmap option_fmap option_map] in Hscan.
      pose proof Hlast as Hsplit. apply last_Some in Hsplit as [page' Hpage].
      assert (length (r0 :: rest0)
              = length (take (S (pageExtra t)) (r0 :: rest0))
                + length (r :: more))%nat as Hsum.
      { by rewrite <- Hdrop, <- length_app, take_drop. }
      rewrite Hpage, length_app in Hsum. cbn in Hsum, Hlen.
      destruct (IH (r :: more) (pre ++ take (S (pageExtra t)) (r0 :: rest0))
                  (Some (key_item row.1))) as (outs & Hrun & Hcat & Hbound).
      * cbn. lia.
      * by rewrite <- app_assoc, <- Hdrop, take_drop.
      * exists (pre ++ page'), row. by rewrite Hpage, app_assoc.
      * eexists (_ :: outs). split; [|split].
        -- by eapply scan_run_more with (1 := Hscan).
        -- rewrite fmap_cons. cbn [concat ScanOutput_Items].
           rewrite Hcat, <- fmap_app, <- Hdrop. by rewrite take_drop.
        -- cbn in Hbound |- *. lia.
Qed.

(** On a table of user records, [FetchUsers] terminates within as many
    rounds as there are rows (and one for the empty table), leaves the table
    as it was and returns the user of every row, each once, in scan order. *)
Corollary FetchUsers_on_table (tableName : string) (t : Table) (stored : list User) :
  well_keyed t ->
  (map_to_list (records t)).*2 = encodeStruct <$> stored ->
  FetchUsers (S (length stored)) tableName t = Some (Ok stored, t).
Proof.
  intros Hwf Hstored.
  destruct (table_scan_run tableName t Hwf (length (map_to_list (records t)))
              (map_to_list (records t)) [] None) as (outs & Hrun & Hcat & Hbound);
    [done..|].
  assert (UnmarshalListOfMaps (concat (ScanOutput_Items <$> outs)) = Ok stored)
    as Hdec by (rewrite Hcat, Hstored; apply UnmarshalListOfMaps_encodeStruct).
  apply UnmarshalListOfMaps_concat in Hdec as (decoded & Hall & ->).
  apply Forall2_fmap_l in Hall. unfold FetchUsers.
  rewrite (FetchUsers_loop_scan_run _ _ _ _ _ Hrun decoded); [done|done|].
  rewrite <- (length_fmap snd), Hstored, length_fmap in Hbound.
  done.
Qed.

End TableScan.

(** ** The reference table keeps its records under their keys *)
Section TableInvariant.
Import memdb.





Lemma well_keyed_empty (extra : nat) : well_keyed (fragment.empty_table extra).
Proof. apply map_Forall_empty. Qed.






End TableInvariant.

(** ** The request dispatch layer *)
Section Dispatch.
Context {B : Type} `{!DynamoDBAPI B} `{!GoStd} `{!handlers.Marshaler}.
Import handlers.

(** C8: a fetch request with a non-empty [email] path parameter is answered
    from [FetchUser] on that email, any other fetch request from
    [FetchUsers]; when the storage call succeeds the response has status
    200 and the JSON encoding of what was fetched as its body. *)
Theorem GetUser_fetch_one_or_all (rounds : nat) (req : APIGatewayProxyRequest)
    (tableName : string) (b : B) :
  (∀ (email : string) (u : User) (b' : B),
      Request_PathParameters req !! "email" = Some email ->
      email ≠ "" ->
      FetchUser email tableName b = (Ok u, b') ->
      GetUser rounds req tableName b
      = Some ({| Response_StatusCode := 200;
                 Response_Body := json_Marshal (PayloadUser u) |}, b'))
  ∧ (∀ (us : list User) (b' : B),
      Request_PathParameters req !! "email" = None
      ∨ Request_PathParameters req !! "email" = Some "" ->
      FetchUsers rounds tableName b = Some (Ok us, b') ->
      GetUser rounds req tableName b
      = Some ({| Response_StatusCode := 200;
                 Response_Body := json_Marshal (PayloadUsers us) |}, b')).
Proof.
  split.
  - intros email u b' Hparam Hne Hfetch. unfold GetUser.
    rewrite Hparam. destruct email as [|c email]; [done|].
    cbn [default from_option id String.length Nat.ltb Nat.leb].
    by rewrite Hfetch.
  - intros us b' Hparam Hfetch. unfold GetUser.
    destruct Hparam as [-> | ->];
      cbn [default from_option id String.length Nat.ltb Nat.leb];
      by rewrite Hfetch.
Qed.

(** C9: whatever error a storage operation returns, the handler answers
    with status 500 and the JSON object holding the message of the error;
    an unrecognized operation is answered with status 405 and the message
    "Method not allowed", without touching the backend. *)
Theorem failures_are_500_unrecognized_is_405 (rounds : nat)
    (req : APIGatewayProxyRequest) (tableName : string) (b b' : B) (err : error) :
  (∀ email : string,
      Request_PathParameters req !! "email" = Some email ->
      email ≠ "" ->
      FetchUser email tableName b = (Error err, b') ->
      GetUser rounds req tableName b = Some (failure_response err, b'))
  ∧ (Request_PathParameters req !! "email" = None
     ∨ Request_PathParameters req !! "email" = Some "" ->
     FetchUsers rounds tableName b = Some (Error err, b') ->
     GetUser rounds req tableName b = Some (failure_response err, b'))
  ∧ (user.CreateUser req tableName b = (Error err, b') ->
     handlers.CreateUser req tableName b = (failure_response err, b'))
  ∧ (user.UpdateUser req tableName b = (Error err, b') ->
     handlers.UpdateUser req tableName b = (failure_response err, b'))
  ∧ (user.DeleteUser req tableName b = (Some err, b') ->
     handlers.DeleteUser req tableName b = (failure_response err, b'))
  ∧ UnhandledMethod
    = {| Response_StatusCode := 405;
         Response_Body := json_Marshal (PayloadString "Method not allowed") |}
  ∧ (∀ selector : string,
      dispatch rounds (Unrecognized selector) req tableName b
      = Some (UnhandledMethod, b)).
Proof.
  repeat split.
  - intros email Hparam Hne Hfetch. unfold GetUser.
    rewrite Hparam. destruct email as [|c email]; [done|].
    cbn [default from_option id String.length Nat.ltb Nat.leb].
    by rewrite Hfetch.
  - intros Hparam Hfetch. unfold GetUser.
    destruct Hparam as [-> | ->];
      cbn [default from_option id String.length Nat.ltb Nat.leb];
      by rewrite Hfetch.
  - intros Hcall. unfold handlers.CreateUser. by rewrite Hcall.
  - intros Hcall. unfold handlers.UpdateUser. by rewrite Hcall.
  - intros Hcall. unfold handlers.DeleteUser. by rewrite Hcall.
Qed.

End Dispatch.

(** * The statements at concrete requests *)
Section Concrete.
Import memdb fragment.

(** C1 at the update body [{"email":"a@x.com","firstName":"A"}]: the
    expression sent is [SET fieldName = :fieldName]. *)
Lemma UpdateUser_expression_fieldName_witness :
  json_Unmarshal (named_body "a@x.com" "A") zero_User = Some alice
  ∧ FirstName alice ≠ ""
  ∧ ∃ input : UpdateItemInput,
      (UpdateUser (body_request (named_body "a@x.com" "A")) "users"
         ([], table_of 0 [alice])).2.1
      = [] ++ [CallUpdateItem input]
      ∧ UpdateItemInput_UpdateExpression input
        = Some ("SET fieldName = :fieldName"
                +:+ (if decide (LastName alice = "") then ""
                     else ", lastName = :lastName"))
      ∧ updateExpressionPart "firstName" ∉ UpdateUser_updates alice.
Proof.
  split; [reflexivity|]. split; [done|].
  apply (UpdateUser_expression_fieldName
           (body_request (named_body "a@x.com" "A")) "users" []
           (table_of 0 [alice]) alice); [reflexivity|done].
Defined.

(** C2 at the empty table: the get for [a@x.com] succeeds with no item. *)
Lemma FetchUser_absent_zero_User_witness :
  GetItem {| GetItemInput_TableName := "users";
             GetItemInput_Key := {[ "email" := AttrS "a@x.com" ]} |}
    (empty_table 0)
  = (Ok {| GetItemOutput_Item := None |}, empty_table 0)
  ∧ FetchUser "a@x.com" "users" (empty_table 0) = (Ok zero_User, empty_table 0).
Proof.
  split; [reflexivity|].
  apply (FetchUser_absent_zero_User "a@x.com" "users"
           (empty_table 0) (empty_table 0)).
  reflexivity.
Defined.

(** The empty table holds no record for [a@x.com], the get succeeds, and
    [FetchUser] returns a value, not an error. *)
Lemma FetchUser_absent_is_not_an_error :
  records (empty_table 0) !! "a@x.com" = None
  ∧ (GetItem {| GetItemInput_TableName := "users";
                GetItemInput_Key := {[ "email" := AttrS "a@x.com" ]} |}
       (empty_table 0)).1
    = Ok {| GetItemOutput_Item := None |}
  ∧ (FetchUser "a@x.com" "users" (empty_table 0)).1 = Ok (mkUser "" "" "")
  ∧ ¬ ∃ err : error,
        (FetchUser "a@x.com" "users" (empty_table 0)).1 = Error err.
Proof.
  split; [reflexivity|]. split; [reflexivity|]. split; [reflexivity|].
  intros [err Herr]. vm_compute in Herr. discriminate Herr.
Qed.

(** C3 at the create body [{"email":"a@x.com","firstName":"A"}] on the
    empty table. *)
Lemma CreateUser_then_FetchUser_witness :
  json_Unmarshal (named_body "a@x.com" "A") zero_User = Some alice
  ∧ mail_ParseAddress (Email alice) = true
  ∧ records (empty_table 0) !! Email alice = None
  ∧ ∃ t' : Table,
      CreateUser (body_request (named_body "a@x.com" "A")) "users" (empty_table 0)
      = (Ok alice, t')
      ∧ records t' = <[Email alice := encodeStruct alice]> (records (empty_table 0))
      ∧ FetchUser (Email alice) "users" t' = (Ok alice, t').
Proof.
  split; [reflexivity|]. split; [reflexivity|]. split; [reflexivity|].
  apply (CreateUser_then_FetchUser
           (body_request (named_body "a@x.com" "A")) "users" (empty_table 0)
           alice); reflexivity.
Defined.

(** C5 at two create requests for [a@x.com], the second with another first
    name, starting from the empty table. *)
Lemma CreateUser_twice_witness :
  json_Unmarshal (named_body "a@x.com" "A") zero_User = Some alice
  ∧ json_Unmarshal (named_body "a@x.com" "Z") zero_User
    = Some (mkUser "a@x.com" "Z" "")
  ∧ CreateUser (body_request (named_body "a@x.com" "A")) "users" (empty_table 0)
    = (Ok alice, table_of 0 [alice])
  ∧ alice = alice
  ∧ records (table_of 0 [alice]) !! Email alice = Some (encodeStruct alice)
  ∧ CreateUser (body_request (named_body "a@x.com" "Z")) "users"
      (table_of 0 [alice])
    = (Error ErrorUserAlreadyExists, table_of 0 [alice]).
Proof.
  split; [reflexivity|]. split; [reflexivity|]. split; [reflexivity|].
  apply (CreateUser_twice
           (body_request (named_body "a@x.com" "A"))
           (body_request (named_body "a@x.com" "Z")) "users"
           (empty_table 0) (table_of 0 [alice]) alice
           (mkUser "a@x.com" "Z" "") alice); reflexivity.
Defined.

(** C6 at the create body [{"email":"not-an-email"}]. *)
Lemma CreateUser_invalid_email_witness :
  json_Unmarshal (email_body "not-an-email") zero_User
  = Some (mkUser "not-an-email" "" "")
  ∧ mail_ParseAddress "not-an-email" = false
  ∧ CreateUser (body_request (email_body "not-an-email")) "users"
      (table_of 0 [alice])
    = (Error ErrorInvalidEmail, table_of 0 [alice])
  ∧ ∀ log : list Call,
      CreateUser (body_request (email_body "not-an-email")) "users"
        (log, table_of 0 [alice])
      = (Error ErrorInvalidEmail, (log, table_of 0 [alice])).
Proof.
  split; [reflexivity|]. split; [reflexivity|].
  apply (CreateUser_invalid_email
           (body_request (email_body "not-an-email")) "users"
           (table_of 0 [alice]) (mkUser "not-an-email" "" "")); reflexivity.
Defined.

(** C7 at the delete body [{"email":"a@x.com"}] on the table that holds the
    record of [a@x.com]: the record exists, the call fails with "could not
    delete item" and the record is still there. *)
Lemma DeleteUser_never_deletes_witness :
  json_Unmarshal (email_body "a@x.com") zero_User = Some (mkUser "a@x.com" "" "")
  ∧ records (table_of 0 [alice]) !! "a@x.com" = Some (encodeStruct alice)
  ∧ DeleteUser (body_request (email_body "a@x.com")) "users" (table_of 0 [alice])
    = (Some ErrorCouldNotDeleteItem, table_of 0 [alice]).
Proof.
  split; [reflexivity|]. split; [reflexivity|].
  apply (DeleteUser_never_deletes
           (body_request (email_body "a@x.com")) "users" (table_of 0 [alice])
           (mkUser "a@x.com" "" "")); reflexivity.
Defined.

(** C10 at the body [{"email":"a@x.com","firstName":"A"}], sent as an update
    and as a delete. *)
Lemma Update_Delete_key_is_marshaled_body_witness :
  json_Unmarshal (named_body "a@x.com" "A") zero_User = Some alice
  ∧ ∃ (item : Item) (upd : UpdateItemInput) (del : DeleteItemInput),
      MarshalMap alice = Ok item
      ∧ (UpdateUser (body_request (named_body "a@x.com" "A")) "users"
           ([], table_of 0 [alice])).2.1 = [] ++ [CallUpdateItem upd]
      ∧ UpdateItemInput_Key upd = item
      ∧ (DeleteUser (body_request (named_body "a@x.com" "A")) "users"
           ([], table_of 0 [alice])).2.1 = [] ++ [CallDeleteItem del]
      ∧ DeleteItemInput_Key del = item
      ∧ dom item = ({[ "email"; "firstName"; "lastName" ]} : gset string)
      ∧ item !! "email" = Some (encodeString (Email alice))
      ∧ item !! "firstName" = Some (encodeString (FirstName alice))
      ∧ item !! "lastName" = Some (encodeString (LastName alice))
      ∧ ∀ av : AttributeValue, item ≠ {[ "email" := av ]}.
Proof.
  split; [reflexivity|].
  apply (Update_Delete_key_is_marshaled_body
           (body_request (named_body "a@x.com" "A")) "users" []
           (table_of 0 [alice]) alice).
  reflexivity.
Defined.

(** C4 at the table of three users served two rows a page: two pages, and
    [FetchUsers] returns the three users within two rounds. *)
Lemma FetchUsers_all_pages_witness :
  ∃ outs : list ScanOutput,
    scan_run "users" None (table_of 1 [alice; bob; carol]) outs
      (table_of 1 [alice; bob; carol])
    ∧ concat (ScanOutput_Items <$> outs) ≡ₚ encodeStruct <$> [alice; bob; carol]
    ∧ (length outs ≤ 2)%nat
    ∧ ∃ us : list User,
        FetchUsers 2 "users" (table_of 1 [alice; bob; carol])
        = Some (Ok us, table_of 1 [alice; bob; carol])
        ∧ us ≡ₚ [alice; bob; carol].
Proof.
  assert (∃ outs : list ScanOutput,
            scan_run "users" None (table_of 1 [alice; bob; carol]) outs
              (table_of 1 [alice; bob; carol])
            ∧ concat (ScanOutput_Items <$> outs)
              = encodeStruct <$> [carol; alice; bob]
            ∧ length outs = 2%nat) as (outs & Hrun & Hcat & Hlen).
  { eexists [_; _]. split; [|split; [|reflexivity]].
    - eapply scan_run_more; [vm_compute; reflexivity|reflexivity|].
      eapply scan_run_last; [vm_compute; reflexivity|reflexivity].
    - vm_compute. reflexivity. }
  assert (concat (ScanOutput_Items <$> outs)
          ≡ₚ encodeStruct <$> [alice; bob; carol]) as Hperm.
  { rewrite Hcat. apply fmap_Permutation.
    change [carol; alice; bob] with ([carol] ++ [alice; bob]).
    apply Permutation_app_comm. }
  assert (length outs ≤ 2)%nat as Hle by (rewrite Hlen; constructor).
  exists outs. split; [exact Hrun|]. split; [exact Hperm|]. split; [exact Hle|].
  destruct (FetchUsers_all_pages "users" _ _ outs [alice; bob; carol] 2
              Hrun Hperm Hle) as (us & decoded & Hfetch & _ & _ & Hus & _).
  exists us. split; [exact Hfetch|exact Hus].
Defined.

(** C8 at a request for [a@x.com] and at a request without parameters, on
    the table of three users. *)
Lemma GetUser_fetch_one_or_all_witness :
  Request_PathParameters (email_request "a@x.com") !! "email" = Some "a@x.com"
  ∧ FetchUser "a@x.com" "users" (table_of 1 [alice; bob; carol])
    = (Ok alice, table_of 1 [alice; bob; carol])
  ∧ handlers.GetUser 2 (email_request "a@x.com") "users"
      (table_of 1 [alice; bob; carol])
    = Some ({| handlers.Response_StatusCode := 200;
               handlers.Response_Body :=
                 handlers.json_Marshal (handlers.PayloadUser alice) |},
            table_of 1 [alice; bob; carol])
  ∧ Request_PathParameters (body_request "") !! "email" = None
  ∧ FetchUsers 2 "users" (table_of 1 [alice; bob; carol])
    = Some (Ok [carol; alice; bob], table_of 1 [alice; bob; carol])
  ∧ handlers.GetUser 2 (body_request "") "users"
      (table_of 1 [alice; bob; carol])
    = Some ({| handlers.Response_StatusCode := 200;
               handlers.Response_Body :=
                 handlers.json_Marshal
                   (handlers.PayloadUsers [carol; alice; bob]) |},
            table_of 1 [alice; bob; carol]).
Proof.
  split; [reflexivity|]. split; [vm_compute; reflexivity|]. split.
  { apply (proj1 (GetUser_fetch_one_or_all 2 (email_request "a@x.com") "users"
                    (table_of 1 [alice; bob; carol])) "a@x.com");
      [reflexivity|done|vm_compute; reflexivity]. }
  split; [reflexivity|]. split; [vm_compute; reflexivity|].
  apply (proj2 (GetUser_fetch_one_or_all 2 (body_request "") "users"
                  (table_of 1 [alice; bob; carol])));
    [left; reflexivity|vm_compute; reflexivity].
Defined.

(** C9 at a delete request for a stored user (a storage failure) and at the
    unrecognized selector [PATCH]. *)
Lemma failures_are_500_unrecognized_is_405_witness :
  DeleteUser (body_request (email_body "a@x.com")) "users" (table_of 0 [alice])
  = (Some ErrorCouldNotDeleteItem, table_of 0 [alice])
  ∧ handlers.DeleteUser (body_request (email_body "a@x.com")) "users"
      (table_of 0 [alice])
    = ({| handlers.Response_StatusCode := 500;
          handlers.Response_Body :=
            "{" +:+ member "error" (quoted "could not delete item") +:+ "}" |},
       table_of 0 [alice])
  ∧ handlers.dispatch 2 (handlers.Unrecognized "PATCH")
      (body_request (email_body "a@x.com")) "users" (table_of 0 [alice])
    = Some ({| handlers.Response_StatusCode := 405;
               handlers.Response_Body := quoted "Method not allowed" |},
            table_of 0 [alice]).
Proof.
  split; [vm_compute; reflexivity|].
  destruct (failures_are_500_unrecognized_is_405 2
              (body_request (email_body "a@x.com")) "users"
              (table_of 0 [alice]) (table_of 0 [alice]) ErrorCouldNotDeleteItem)
    as (_ & _ & _ & _ & Hdelete & Hmethod & Hother).
  split.
  - rewrite Hdelete; [reflexivity|vm_compute; reflexivity].
  - rewrite Hother, Hmethod. reflexivity.
Defined.

(** The reference table on well-formed requests: a delete by the email key
    removes the record, and an update by the email key that sets [firstName]
    rewrites it. *)
Example deleteItem_by_key_removes :
  (deleteItem (DeleteUser_input "users" (key_item "a@x.com"))
     (table_of 0 [alice; bob])).2
  = table_of 0 [bob].
Proof. vm_compute. reflexivity. Qed.

Example updateItem_by_key_sets_firstName :
  updateItem
    {| UpdateItemInput_TableName := "users";
       UpdateItemInput_Key := key_item "a@x.com";
       UpdateItemInput_UpdateExpression := Some "SET firstName = :firstName";
       UpdateItemInput_ConditionExpression := Some "attribute_exists(email)";
       UpdateItemInput_ExpressionAttributeValues := {[ ":firstName" := AttrS "Z" ]};
       UpdateItemInput_ReturnValues := Some "ALL_NEW" |}
    (table_of 0 [alice])
  = (Ok {| UpdateItemOutput_Attributes :=
             Some (encodeStruct (mkUser "a@x.com" "Z" "")) |},
     table_of 0 [mkUser "a@x.com" "Z" ""]).
Proof. vm_compute. reflexivity. Qed.

(** The scenario of the specification, run through the handlers on the
    reference table: create, fetch, delete, fetch again. *)
Example scenario_create :
  handlers.CreateUser (body_request (named_body "a@x.com" "A")) "users"
    (empty_table 0)
  = ({| handlers.Response_StatusCode := 201;
        handlers.Response_Body := encode_User alice |}, table_of 0 [alice]).
Proof. vm_compute. reflexivity. Qed.

Example scenario_fetch :
  handlers.GetUser 1 (email_request "a@x.com") "users" (table_of 0 [alice])
  = Some ({| handlers.Response_StatusCode := 200;
             handlers.Response_Body := encode_User alice |}, table_of 0 [alice]).
Proof. vm_compute. reflexivity. Qed.

Example scenario_delete :
  handlers.DeleteUser (body_request (email_body "a@x.com")) "users"
    (table_of 0 [alice])
  = ({| handlers.Response_StatusCode := 500;
        handlers.Response_Body :=
          "{" +:+ member "error" (quoted "could not delete item") +:+ "}" |},
     table_of 0 [alice]).
Proof. vm_compute. reflexivity. Qed.

Example scenario_fetch_absent :
  handlers.GetUser 1 (email_request "a@x.com") "users" (empty_table 0)
  = Some ({| handlers.Response_StatusCode := 200;
             handlers.Response_Body := encode_User zero_User |}, empty_table 0).
Proof. vm_compute. reflexivity. Qed.

End Concrete.

(** * Further properties of the two packages *)

(** ** What each storage function sends, and how it reads the answer *)
Section Requests.
Context {B : Type} `{!DynamoDBAPI B} `{!GoStd}.

(** X1: a body [json.Unmarshal] rejects makes [CreateUser], [UpdateUser]
    and [DeleteUser] fail with "invalid user data" before anything is sent:
    the backend is as it was and the recording client has recorded
    nothing. *)
Theorem invalid_body_sends_nothing (req : APIGatewayProxyRequest)
    (tableName : string) (log : list Call) (b : B) :
  json_Unmarshal (Request_Body req) zero_User = None ->
  CreateUser req tableName (log, b) = (Error ErrorInvalidUserData, (log, b))
  ∧ UpdateUser req tableName (log, b) = (Error ErrorInvalidUserData, (log, b))
  ∧ DeleteUser req tableName (log, b) = (Some ErrorInvalidUserData, (log, b)).
Proof.
  intros Hbody. unfold CreateUser, UpdateUser, DeleteUser. by rewrite Hbody.
Qed.

(** X2: for a body that parses as [u] with an address the parser accepts,
    [CreateUser] sends exactly one request, a put of the attribute map of
    [u] under the condition [attribute_not_exists(email)], and leaves the
    backend as that put left it.  It returns [u] when the put succeeded,
    "user already exists" when the condition failed and "could not put
    item" for every other error. *)
Theorem CreateUser_one_conditional_put (req : APIGatewayProxyRequest)
    (tableName : string) (log : list Call) (b : B) (u : User) :
  json_Unmarshal (Request_Body req) zero_User = Some u ->
  mail_ParseAddress (Email u) = true ->
  let input :=
    {| PutItemInput_TableName := tableName;
       PutItemInput_Item := encodeStruct u;
       PutItemInput_ConditionExpression := Some "attribute_not_exists(email)" |} in
  (CreateUser req tableName (log, b)).2 = (log ++ [CallPutItem input], (PutItem input b).2)
  ∧ (CreateUser req tableName b).2 = (PutItem input b).2
  ∧ (CreateUser req tableName b).1
    = match (PutItem input b).1 with
      | Ok _ => Ok u
      | Error ConditionalCheckFailedException => Error ErrorUserAlreadyExists
      | Error _ => Error ErrorCouldNotPutItem
      end.
Proof.
  intros Hu Hmail input. unfold CreateUser. rewrite Hu, Hmail.
  cbn [negb MarshalMap]. fold input. unfold CreateUser_input. fold input.
  cbn [PutItem Recorder]. rewrite forward_eq.
  destruct (PutItem input b) as [[out|[| |code]] b1]; by cbn.
Qed.

(** X3: a body with neither a first nor a last name still reaches the
    backend: [UpdateUser] sends an update whose expression is the bare
    keyword [SET] followed by a space, with no assignment after it. *)
Theorem UpdateUser_no_names_empty_SET (req : APIGatewayProxyRequest)
    (tableName : string) (log : list Call) (b : B) (u : User) :
  json_Unmarshal (Request_Body req) zero_User = Some u ->
  FirstName u = "" ->
  LastName u = "" ->
  ∃ input : UpdateItemInput,
    (UpdateUser req tableName (log, b)).2.1 = log ++ [CallUpdateItem input]
    ∧ UpdateItemInput_UpdateExpression input = Some "SET "
    ∧ UpdateItemInput_ConditionExpression input = Some "attribute_exists(email)"
    ∧ UpdateItemInput_ReturnValues input = Some "ALL_NEW".
Proof.
  intros Hu Hfirst Hlast. eexists. split; [by apply UpdateUser_recorded|].
  unfold UpdateUser_input, UpdateUser_updates; cbn.
  by rewrite !decide_True.
Qed.


(** X5: [UpdateUser] and [DeleteUser] translate the errors of their one
    request alike: a failed condition is "user does not exist"; every other
    error is "could not put item" for the update and "could not delete
    item" for the delete.  A delete that succeeds returns no error.  In
    each case the backend is left as the request left it. *)
Theorem Update_Delete_error_translation (req : APIGatewayProxyRequest)
    (tableName : string) (b b' : B) (u : User) :
  json_Unmarshal (Request_Body req) zero_User = Some u ->
  let upd := UpdateUser_input tableName u (encodeStruct u) in
  let del := DeleteUser_input tableName (encodeStruct u) in
  (UpdateItem upd b = (Error ConditionalCheckFailedException, b') ->
   UpdateUser req tableName b = (Error ErrorUserDoesNotExist, b'))
  ∧ (∀ e : awserr, e ≠ ConditionalCheckFailedException ->
      UpdateItem upd b = (Error e, b') ->
      UpdateUser req tableName b = (Error ErrorCouldNotPutItem, b'))
  ∧ (DeleteItem del b = (Error ConditionalCheckFailedException, b') ->
     DeleteUser req tableName b = (Some ErrorUserDoesNotExist, b'))
  ∧ (∀ e : awserr, e ≠ ConditionalCheckFailedException ->
      DeleteItem del b = (Error e, b') ->
      DeleteUser req tableName b = (Some ErrorCouldNotDeleteItem, b'))
  ∧ (∀ out : DeleteItemOutput,
      DeleteItem del b = (Ok out, b') ->
      DeleteUser req tableName b = (None, b')).
Proof.
  intros Hu upd del. unfold UpdateUser, DeleteUser. rewrite Hu.
  cbn [MarshalMap]. fold upd del. repeat split.
  - by intros ->.
  - intros e He ->. by destruct e.
  - by intros ->.
  - intros e He ->. by destruct e.
  - by intros out ->.
Qed.


(** X17: only [CreateUser] checks the email.  For a body whose email the
    parser rejects, [UpdateUser] and [DeleteUser] still send their request,
    keyed by the attribute map of the body as for any other. *)
Theorem Update_Delete_do_not_check_email (req : APIGatewayProxyRequest)
    (tableName : string) (log : list Call) (b : B) (u : User) :
  json_Unmarshal (Request_Body req) zero_User = Some u ->
  mail_ParseAddress (Email u) = false ->
  (CreateUser req tableName (log, b)).2.1 = log
  ∧ (UpdateUser req tableName (log, b)).2.1
    = log ++ [CallUpdateItem (UpdateUser_input tableName u (encodeStruct u))]
  ∧ (DeleteUser req tableName (log, b)).2.1
    = log ++ [CallDeleteItem (DeleteUser_input tableName (encodeStruct u))].
Proof.
  intros Hu Hmail. split; [|split].
  - unfold CreateUser. by rewrite Hu, Hmail.
  - by apply UpdateUser_recorded.
  - by apply DeleteUser_recorded.
Qed.

End Requests.

(** ** The scan loop when a page goes wrong *)
Section ScanFailures.
Context {B : Type} `{!DynamoDBAPI B}.




Lemma FetchUsers_loop_only_scans (rounds : nat) :
  ∀ (input : ScanInput) (users : list User) (log log' : list Call) (b b' : B)
    (r : result error (list User)),
    FetchUsers_loop rounds input users (log, b) = Some (r, (log', b')) ->
    ∃ calls : list Call,
      log' = log ++ calls ∧ Forall is_scan calls
      ∧ (1 ≤ length calls ≤ rounds)%nat.
Proof.
  induction rounds as [|rounds IH]; intros input users log log' b b' r; [done|].
  cbn [FetchUsers_loop Scan Recorder]. rewrite forward_eq.
  destruct (Scan input b) as [[out|e] b1]; cbn [fst snd].
  - destruct (UnmarshalListOfMaps (ScanOutput_Items out)) as [items|].
    + destruct (ScanOutput_LastEvaluatedKey out) as [key|].
      * intros Hrest. apply IH in Hrest as (calls & -> & Hall & Hlen).
        exists (CallScan input :: calls). rewrite <- app_assoc.
        split; [done|]. split; [by constructor|]. cbn. lia.
      * intros [= <- <- <-]. exists [CallScan input].
        split; [done|]. split; [by repeat constructor|]. cbn. lia.
    + intros [= <- <- <-]. exists [CallScan input].
      split; [done|]. split; [by repeat constructor|]. cbn. lia.
  - intros [= <- <- <-]. exists [CallScan input].
    split; [done|]. split; [by repeat constructor|]. cbn. lia.
Qed.

(** X9: whatever the backend answers, the requests of a [FetchUsers] that
    returns are page requests of a scan and nothing else, at least one and at
    most one a round. *)
Theorem FetchUsers_only_scans (rounds : nat) (tableName : string)
    (log log' : list Call) (b b' : B) (r : result error (list User)) :
  FetchUsers rounds tableName (log, b) = Some (r, (log', b')) ->
  ∃ calls : list Call,
    log' = log ++ calls ∧ Forall is_scan calls
    ∧ (1 ≤ length calls ≤ rounds)%nat.
Proof. apply FetchUsers_loop_only_scans. Qed.

End ScanFailures.

(** ** The storage functions on the reference table *)
Section TableBehaviour.
Context `{!GoStd}.
Import memdb.

Lemma well_keyed_has_email (t : Table) (e : string) (old : Item) :
  well_keyed t -> records t !! e = Some old ->
  has_attribute "email" (records t !! e) = true.
Proof.
  intros Hwf Hold. rewrite Hold. apply Hwf in Hold.
  unfold item_key, keyAttribute in Hold. unfold has_attribute.
  apply bool_decide_eq_true. by destruct (old !! "email").
Qed.

(** X11: on a table that keeps its records under their keys, a create
    request with a well-formed email succeeds exactly when no record is
    stored under that email: it then adds the record of the parsed user and
    touches nothing else; otherwise it fails with "user already exists" and
    the table is unchanged. *)
Theorem CreateUser_succeeds_iff_absent (req : APIGatewayProxyRequest)
    (tableName : string) (t : Table) (u : User) :
  well_keyed t ->
  json_Unmarshal (Request_Body req) zero_User = Some u ->
  mail_ParseAddress (Email u) = true ->
  (records t !! Email u = None ->
   CreateUser req tableName t
   = (Ok u, with_records t (<[Email u := encodeStruct u]> (records t))))
  ∧ (is_Some (records t !! Email u) ->
     CreateUser req tableName t = (Error ErrorUserAlreadyExists, t)).
Proof.
  intros Hwf Hu Hmail. rewrite (CreateUser_on_table _ _ _ u) by done. split.
  - by intros ->.
  - intros [old Hold]. by rewrite (well_keyed_has_email t _ old).
Qed.

Lemma key_of_email_key (email : string) :
  key_of {[ "email" := AttrS email ]}
  = if decide (email = "") then None else Some email.
Proof.
  case_decide as He.
  - subst. reflexivity.
  - by apply key_of_key_item.
Qed.

(** X12: a create request changes what [FetchUser] returns for no email but
    its own. *)
Theorem CreateUser_leaves_other_users (req : APIGatewayProxyRequest)
    (tableName other : string) (t : Table) (u : User) :
  json_Unmarshal (Request_Body req) zero_User = Some u ->
  other ≠ Email u ->
  (FetchUser other tableName (CreateUser req tableName t).2).1
  = (FetchUser other tableName t).1.
Proof.
  intros Hu Hother. unfold FetchUser. cbn [GetItem Table_client].
  unfold getItem. cbn [GetItemInput_Key]. rewrite key_of_email_key.
  case_decide; [done|]. cbn [GetItemOutput_Item].
  replace (records (CreateUser req tableName t).2 !! other)
    with (records t !! other); [by destruct (UnmarshalMap _ _)|].
  unfold CreateUser. rewrite Hu.
  destruct (mail_ParseAddress (Email u)); [|done].
  cbn [negb MarshalMap PutItem Table_client]. unfold putItem, CreateUser_input.
  cbn [PutItemInput_Item PutItemInput_ConditionExpression].
  destruct (item_key (encodeStruct u)) as [e|] eqn:Hkey; [|done].
  destruct (eval_condition _ _) as [[]|]; [|done..].
  cbn [snd records with_records].
  assert (e = Email u) as ->.
  { unfold item_key, keyAttribute in Hkey. rewrite encodeStruct_email in Hkey.
    unfold encodeString in Hkey. case_decide; [done|].
    case_decide; [done|]. by injection Hkey. }
  by rewrite lookup_insert_ne.
Qed.

(** X13: a record written for a user reads back as that user: when the
    table holds the attribute map of [u] under a non-empty email,
    [FetchUser] on that email returns [u] and leaves the table alone. *)
Theorem FetchUser_returns_stored_user (email tableName : string) (t : Table)
    (u : User) :
  email ≠ "" ->
  records t !! email = Some (encodeStruct u) ->
  FetchUser email tableName t = (Ok u, t).
Proof.
  intros He Hrec.
  by rewrite FetchUser_on_table, Hrec, UnmarshalMap_encodeStruct.
Qed.



Lemma encodeStruct_inj (u v : User) : encodeStruct u = encodeStruct v -> u = v.
Proof.
  intros Heq. pose proof (UnmarshalMap_encodeStruct u zero_User) as Hu.
  rewrite Heq, UnmarshalMap_encodeStruct in Hu. by injection Hu.
Qed.

Lemma item_key_encodeStruct_inv (u : User) (e : string) :
  item_key (encodeStruct u) = Some e -> e = Email u.
Proof.
  unfold item_key, keyAttribute. rewrite encodeStruct_email.
  unfold encodeString. case_decide; [done|]. case_decide; [done|].
  by intros [= <-].
Qed.

(** The records of a table of user records, as a list of users in scan
    order. *)
Lemma table_rows_users (t : Table) :
  (∀ (e : string) (item : Item),
      records t !! e = Some item -> ∃ v : User, item = encodeStruct v) ->
  ∃ stored : list User,
    (map_to_list (records t)).*2 = encodeStruct <$> stored
    ∧ length stored = size (records t).
Proof.
  intros Hall.
  assert (Forall (λ row : string * Item, ∃ v, row.2 = encodeStruct v)
            (map_to_list (records t))) as Hrows.
  { apply Forall_forall. intros [e item] Hin%elem_of_map_to_list.
    by apply (Hall e). }
  rewrite <- length_map_to_list.
  induction Hrows as [|row rows [v Hv] _ (stored & Hst & Hlen)].
  - by exists [].
  - exists (v :: stored). rewrite !fmap_cons, Hv, Hst. cbn. by rewrite Hlen.
Qed.

(** X10: on a table that keeps its records under their keys and holds user
    records only, [FetchUsers] returns within one round more than there are
    records, whatever the page size, and leaves the table as it was.  The
    users returned are exactly those whose record is stored under their
    email, none of them twice. *)
Theorem FetchUsers_table_complete (tableName : string) (t : Table) :
  well_keyed t ->
  (∀ (e : string) (item : Item),
      records t !! e = Some item -> ∃ v : User, item = encodeStruct v) ->
  ∃ us : list User,
    FetchUsers (S (size (records t))) tableName t = Some (Ok us, t)
    ∧ NoDup us
    ∧ ∀ v : User, v ∈ us ↔ records t !! Email v = Some (encodeStruct v).
Proof.
  intros Hwf Hall. destruct (table_rows_users t Hall) as (us & Hrows & Hlen).
  exists us. split; [|split].
  - rewrite <- Hlen. by apply FetchUsers_on_table.
  - apply (NoDup_fmap_1 encodeStruct). rewrite <- Hrows.
    apply (NoDup_fmap_1 item_key).
    assert (item_key <$> (map_to_list (records t)).*2
            = Some <$> (map_to_list (records t)).*1) as ->.
    { rewrite <- !list_fmap_compose. apply list_fmap_ext.
      intros i [e item] Hin%list_elem_of_lookup_2%elem_of_map_to_list.
      cbn. by apply Hwf in Hin. }
    apply NoDup_fmap_2; [apply _|apply NoDup_fst_map_to_list].
  - intros v. split.
    + intros Hv. assert (encodeStruct v ∈ (map_to_list (records t)).*2) as Hin.
      { rewrite Hrows. by apply list_elem_of_fmap_2. }
      apply list_elem_of_fmap in Hin as ([e item] & Hitem & Hin).
      cbn in Hitem. subst item. apply elem_of_map_to_list in Hin.
      pose proof (Hwf _ _ Hin) as Hkey. cbn in Hkey.
      by apply item_key_encodeStruct_inv in Hkey as ->.
    + intros Hrec. apply elem_of_map_to_list in Hrec.
      assert (encodeStruct v ∈ encodeStruct <$> us) as Hin.
      { rewrite <- Hrows.
        by apply (list_elem_of_fmap_2 snd _ (Email v, encodeStruct v)). }
      apply list_elem_of_fmap in Hin as (v' & Heq & Hin).
      by apply encodeStruct_inj in Heq as ->.
Qed.

(** X18: creating a user and then fetching all.  On a table as in X10 with
    no record under the email of [u], the create succeeds, and the
    [FetchUsers] after it returns [u] together with the users stored
    before, each once, in some order. *)
Theorem CreateUser_then_FetchUsers (req : APIGatewayProxyRequest)
    (tableName : string) (t : Table) (u : User) (stored : list User) :
  well_keyed t ->
  (map_to_list (records t)).*2 = encodeStruct <$> stored ->
  json_Unmarshal (Request_Body req) zero_User = Some u ->
  mail_ParseAddress (Email u) = true ->
  records t !! Email u = None ->
  ∃ (t' : Table) (us : list User),
    CreateUser req tableName t = (Ok u, t')
    ∧ FetchUsers (S (S (length stored))) tableName t' = Some (Ok us, t')
    ∧ us ≡ₚ u :: stored.
Proof.
  intros Hwf Hstored Hu Hmail Hnone.
  set (t' := with_records t (<[Email u := encodeStruct u]> (records t))).
  assert (well_keyed t') as Hwf'.
  { apply map_Forall_insert_2; [|done].
    by apply item_key_encodeStruct, ParseAddress_nonempty. }
  assert ((map_to_list (records t')).*2 ≡ₚ encodeStruct <$> (u :: stored))
    as Hperm.
  { unfold t'. cbn [records with_records].
    rewrite map_to_list_insert by done. by rewrite !fmap_cons, Hstored. }
  apply Permutation_map_inv in Hperm as (us & Hrows & Hus).
  exists t', us. split; [|split].
  - rewrite (CreateUser_on_table _ _ _ u) by done. by rewrite Hnone.
  - replace (S (length stored)) with (length us)
      by (by rewrite <- Hus).
    by apply FetchUsers_on_table.
  - by symmetry.
Qed.

End TableBehaviour.

(** ** The requests behind a fetch *)
Section FetchRequests.
Context {B : Type} `{!DynamoDBAPI B} `{!GoStd} `{!handlers.Marshaler}.

Lemma FetchUser_recorded (email tableName : string) (log : list Call) (b : B) :
  (FetchUser email tableName (log, b)).2.1
  = log ++ [CallGetItem {| GetItemInput_TableName := tableName;
                           GetItemInput_Key := {[ "email" := AttrS email ]} |}].
Proof.
  unfold FetchUser. cbn [GetItem Recorder]. rewrite forward_eq.
  destruct (GetItem _ b) as [[out|e] b1]; cbn; [|done].
  by destruct (UnmarshalMap _ _).
Qed.

(** X15: the handler of a fetch sends one kind of request only.  With a
    non-empty [email] path parameter it sends a single get keyed by that
    email, and no scan; without one it sends page requests of a scan, and no
    get. *)
Theorem GetUser_requests (rounds : nat) (req : APIGatewayProxyRequest)
    (tableName : string) (log log' : list Call) (b b' : B)
    (resp : handlers.APIGatewayProxyResponse) :
  handlers.GetUser rounds req tableName (log, b) = Some (resp, (log', b')) ->
  (∀ email : string,
      Request_PathParameters req !! "email" = Some email ->
      email ≠ "" ->
      log' = log ++ [CallGetItem
                       {| GetItemInput_TableName := tableName;
                          GetItemInput_Key := {[ "email" := AttrS email ]} |}])
  ∧ (Request_PathParameters req !! "email" = None
     ∨ Request_PathParameters req !! "email" = Some "" ->
     ∃ calls : list Call, log' = log ++ calls ∧ Forall is_scan calls).
Proof.
  intros Hget. split.
  - intros email Hparam Hne. unfold handlers.GetUser in Hget.
    rewrite Hparam in Hget. destruct email as [|c email]; [done|].
    cbn [default from_option id String.length Nat.ltb Nat.leb] in Hget.
    pose proof (FetchUser_recorded (String c email) tableName log b) as Hrec.
    destruct (FetchUser (String c email) tableName (log, b)) as [[u|err] [l1 b1]];
      cbn [fst snd] in Hrec; by injection Hget as _ <- _.
  - intros Hparam. unfold handlers.GetUser in Hget.
    assert (∃ r, FetchUsers rounds tableName (log, b) = Some (r, (log', b')))
      as [r Hfetch].
    { destruct Hparam as [Hparam | Hparam]; rewrite Hparam in Hget;
        cbn [default from_option id String.length Nat.ltb Nat.leb] in Hget;
        destruct (FetchUsers rounds tableName (log, b)) as [[[us|err] s]|];
        try done; injection Hget as _ <-; by eexists. }
    apply FetchUsers_loop_only_scans in Hfetch as (calls & -> & Hall & _).
    by exists calls.
Qed.

End FetchRequests.

(** * The further properties at concrete requests *)
Section ConcreteFurther.
Import memdb fragment scripted.

(** X1 at the body [not json]. *)
Lemma invalid_body_sends_nothing_witness :
  json_Unmarshal "not json" zero_User = None
  ∧ CreateUser (body_request "not json") "users" ([], table_of 0 [alice])
    = (Error ErrorInvalidUserData, ([], table_of 0 [alice]))
  ∧ UpdateUser (body_request "not json") "users" ([], table_of 0 [alice])
    = (Error ErrorInvalidUserData, ([], table_of 0 [alice]))
  ∧ DeleteUser (body_request "not json") "users" ([], table_of 0 [alice])
    = (Some ErrorInvalidUserData, ([], table_of 0 [alice])).
Proof.
  split; [reflexivity|].
  apply (invalid_body_sends_nothing (body_request "not json") "users" []
           (table_of 0 [alice])).
  reflexivity.
Defined.

(** X2 at the create body of [a@x.com] on the empty table. *)
Lemma CreateUser_one_conditional_put_witness :
  json_Unmarshal (named_body "a@x.com" "A") zero_User = Some alice
  ∧ mail_ParseAddress (Email alice) = true
  ∧ (CreateUser (body_request (named_body "a@x.com" "A")) "users"
       ([], empty_table 0)).2
    = ([CallPutItem
          {| PutItemInput_TableName := "users";
             PutItemInput_Item := encodeStruct alice;
             PutItemInput_ConditionExpression :=
               Some "attribute_not_exists(email)" |}],
       table_of 0 [alice])
  ∧ (CreateUser (body_request (named_body "a@x.com" "A")) "users"
       (empty_table 0)).1 = Ok alice.
Proof.
  split; [reflexivity|]. split; [reflexivity|].
  destruct (CreateUser_one_conditional_put
              (body_request (named_body "a@x.com" "A")) "users" []
              (empty_table 0) alice) as (Hsent & _ & Hresult);
    [reflexivity..|].
  split; [rewrite Hsent|rewrite Hresult]; vm_compute; reflexivity.
Defined.

(** X3 at the update body [{"email":"a@x.com"}]. *)
Lemma UpdateUser_no_names_empty_SET_witness :
  json_Unmarshal (email_body "a@x.com") zero_User = Some (mkUser "a@x.com" "" "")
  ∧ ∃ input : UpdateItemInput,
      (UpdateUser (body_request (email_body "a@x.com")) "users"
         ([], table_of 0 [alice])).2.1 = [] ++ [CallUpdateItem input]
      ∧ UpdateItemInput_UpdateExpression input = Some "SET "
      ∧ UpdateItemInput_ConditionExpression input = Some "attribute_exists(email)"
      ∧ UpdateItemInput_ReturnValues input = Some "ALL_NEW".
Proof.
  split; [reflexivity|].
  apply (UpdateUser_no_names_empty_SET
           (body_request (email_body "a@x.com")) "users" []
           (table_of 0 [alice]) (mkUser "a@x.com" "" "")); reflexivity.
Defined.


(** X5 on the reference table, whose answer to both requests is an error
    other than a failed condition. *)
Lemma Update_Delete_error_translation_witness :
  json_Unmarshal (named_body "a@x.com" "A") zero_User = Some alice
  ∧ UpdateUser (body_request (named_body "a@x.com" "A")) "users"
      (table_of 0 [alice])
    = (Error ErrorCouldNotPutItem, table_of 0 [alice])
  ∧ DeleteUser (body_request (named_body "a@x.com" "A")) "users"
      (table_of 0 [alice])
    = (Some ErrorCouldNotDeleteItem, table_of 0 [alice]).
Proof.
  split; [reflexivity|].
  destruct (Update_Delete_error_translation
              (body_request (named_body "a@x.com" "A")) "users"
              (table_of 0 [alice]) (table_of 0 [alice]) alice)
    as (_ & Hupdate & _ & Hdelete & _); [reflexivity|].
  split.
  - apply (Hupdate ValidationException); [done|vm_compute; reflexivity].
  - apply (Hdelete ValidationException); [done|vm_compute; reflexivity].
Defined.




(** X9 at a fetch of the three users, two rows a page, behind the
    recording client. *)
Lemma FetchUsers_only_scans_witness :
  ∃ (r : result error (list User)) (log' : list Call),
    FetchUsers 2 "users" ([], table_of 1 [alice; bob; carol])
    = Some (r, (log', table_of 1 [alice; bob; carol]))
    ∧ ∃ calls : list Call,
        log' = [] ++ calls ∧ Forall is_scan calls
        ∧ (1 ≤ length calls ≤ 2)%nat.
Proof.
  do 2 eexists. split; [vm_compute; reflexivity|].
  eapply (FetchUsers_only_scans 2 "users" [] _
            (table_of 1 [alice; bob; carol]) (table_of 1 [alice; bob; carol])).
  vm_compute. reflexivity.
Defined.

(** The table of three users, two rows a page, read in full. *)
Lemma FetchUsers_on_table_example :
  well_keyed (table_of 1 [alice; bob; carol])
  ∧ (map_to_list (records (table_of 1 [alice; bob; carol]))).*2
    = encodeStruct <$> [carol; alice; bob]
  ∧ FetchUsers 4 "users" (table_of 1 [alice; bob; carol])
    = Some (Ok [carol; alice; bob], table_of 1 [alice; bob; carol]).
Proof.
  assert (well_keyed (table_of 1 [alice; bob; carol])) as Hwf.
  { apply map_Forall_to_list. vm_compute. repeat constructor. }
  split; [exact Hwf|]. split; [vm_compute; reflexivity|].
  apply (FetchUsers_on_table "users" (table_of 1 [alice; bob; carol])
           [carol; alice; bob] Hwf).
  vm_compute. reflexivity.
Defined.

(** X11 at the create body of [a@x.com], on the empty table and on the table
    that already holds the user. *)
Lemma CreateUser_succeeds_iff_absent_witness :
  well_keyed (empty_table 0)
  ∧ json_Unmarshal (named_body "a@x.com" "A") zero_User = Some alice
  ∧ mail_ParseAddress (Email alice) = true
  ∧ CreateUser (body_request (named_body "a@x.com" "A")) "users" (empty_table 0)
    = (Ok alice,
       with_records (empty_table 0)
         (<[Email alice := encodeStruct alice]> (records (empty_table 0)))).
Proof.
  split; [apply map_Forall_empty|]. split; [reflexivity|]. split; [reflexivity|].
  destruct (CreateUser_succeeds_iff_absent
              (body_request (named_body "a@x.com" "A")) "users"
              (empty_table 0) alice) as [Habsent _];
    [apply map_Forall_empty|reflexivity..|].
  apply Habsent. reflexivity.
Defined.

(** X12 at the creation of [a@x.com] on the table that holds [b@x.com]. *)
Lemma CreateUser_leaves_other_users_witness :
  json_Unmarshal (named_body "a@x.com" "A") zero_User = Some alice
  ∧ "b@x.com" ≠ Email alice
  ∧ (FetchUser "b@x.com" "users"
       (CreateUser (body_request (named_body "a@x.com" "A")) "users"
          (table_of 0 [bob])).2).1
    = (FetchUser "b@x.com" "users" (table_of 0 [bob])).1.
Proof.
  split; [reflexivity|]. split; [done|].
  apply (CreateUser_leaves_other_users
           (body_request (named_body "a@x.com" "A")) "users" "b@x.com"
           (table_of 0 [bob]) alice); [reflexivity|done].
Defined.

(** X13 at the table that holds [a@x.com]. *)
Lemma FetchUser_returns_stored_user_witness :
  "a@x.com" ≠ ""
  ∧ records (table_of 0 [alice]) !! "a@x.com" = Some (encodeStruct alice)
  ∧ FetchUser "a@x.com" "users" (table_of 0 [alice])
    = (Ok alice, table_of 0 [alice]).
Proof.
  split; [done|]. split; [reflexivity|].
  apply (FetchUser_returns_stored_user "a@x.com" "users" (table_of 0 [alice])
           alice); [done|reflexivity].
Defined.


(** X15 at a request for [a@x.com] on the table of three users. *)
Lemma GetUser_requests_witness :
  ∃ (resp : handlers.APIGatewayProxyResponse) (log' : list Call),
    handlers.GetUser 2 (email_request "a@x.com") "users"
      ([], table_of 1 [alice; bob; carol])
    = Some (resp, (log', table_of 1 [alice; bob; carol]))
    ∧ log' = [] ++ [CallGetItem
                      {| GetItemInput_TableName := "users";
                         GetItemInput_Key := {[ "email" := AttrS "a@x.com" ]} |}].
Proof.
  assert (∃ (resp : handlers.APIGatewayProxyResponse) (log' : list Call),
            handlers.GetUser 2 (email_request "a@x.com") "users"
              ([], table_of 1 [alice; bob; carol])
            = Some (resp, (log', table_of 1 [alice; bob; carol])))
    as (resp & log' & Hget).
  { do 2 eexists. vm_compute. reflexivity. }
  exists resp, log'. split; [exact Hget|].
  apply (proj1 (GetUser_requests 2 (email_request "a@x.com") "users" [] log'
                  (table_of 1 [alice; bob; carol])
                  (table_of 1 [alice; bob; carol]) resp Hget) "a@x.com");
    [reflexivity|done].
Defined.

(** X16 at the update body of [a@x.com] on the table that holds the user. *)
Lemma UpdateUser_never_updates_witness :
  json_Unmarshal (named_body "a@x.com" "Z") zero_User
  = Some (mkUser "a@x.com" "Z" "")
  ∧ records (table_of 0 [alice]) !! "a@x.com" = Some (encodeStruct alice)
  ∧ UpdateUser (body_request (named_body "a@x.com" "Z")) "users"
      (table_of 0 [alice])
    = (Error ErrorCouldNotPutItem, table_of 0 [alice]).
Proof.
  split; [reflexivity|]. split; [reflexivity|].
  apply (UpdateUser_never_updates
           (body_request (named_body "a@x.com" "Z")) "users"
           (table_of 0 [alice]) (mkUser "a@x.com" "Z" "")).
  reflexivity.
Defined.

(** X10 at the table of three users, two rows a page. *)
Lemma FetchUsers_table_complete_witness :
  well_keyed (table_of 1 [alice; bob; carol])
  ∧ (∀ (e : string) (item : Item),
        records (table_of 1 [alice; bob; carol]) !! e = Some item ->
        ∃ v : User, item = encodeStruct v)
  ∧ ∃ us : list User,
      FetchUsers (S (size (records (table_of 1 [alice; bob; carol]))))
        "users" (table_of 1 [alice; bob; carol])
      = Some (Ok us, table_of 1 [alice; bob; carol])
      ∧ NoDup us
      ∧ ∀ v : User,
          v ∈ us
          ↔ records (table_of 1 [alice; bob; carol]) !! Email v
            = Some (encodeStruct v).
Proof.
  assert (map_to_list (records (table_of 1 [alice; bob; carol]))
          = [("c@x.com", encodeStruct carol); ("a@x.com", encodeStruct alice);
             ("b@x.com", encodeStruct bob)]) as Hrows
    by (vm_compute; reflexivity).
  assert (well_keyed (table_of 1 [alice; bob; carol])) as Hwf.
  { apply map_Forall_to_list. rewrite Hrows. repeat constructor. }
  assert (∀ (e : string) (item : Item),
            records (table_of 1 [alice; bob; carol]) !! e = Some item ->
            ∃ v : User, item = encodeStruct v) as Hall.
  { intros e item Hin%elem_of_map_to_list. rewrite Hrows in Hin.
    rewrite !elem_of_cons, elem_of_nil in Hin.
    destruct Hin as [[= -> ->]|[[= -> ->]|[[= -> ->]|[]]]]; by eexists. }
  split; [exact Hwf|]. split; [exact Hall|].
  exact (FetchUsers_table_complete "users" (table_of 1 [alice; bob; carol])
           Hwf Hall).
Defined.

(** X17 at the body [{"email":"not-an-email"}]. *)
Lemma Update_Delete_do_not_check_email_witness :
  json_Unmarshal (email_body "not-an-email") zero_User
  = Some (mkUser "not-an-email" "" "")
  ∧ mail_ParseAddress "not-an-email" = false
  ∧ (CreateUser (body_request (email_body "not-an-email")) "users"
       ([], empty_table 0)).2.1 = []
  ∧ (UpdateUser (body_request (email_body "not-an-email")) "users"
       ([], empty_table 0)).2.1
    = [] ++ [CallUpdateItem
               (UpdateUser_input "users" (mkUser "not-an-email" "" "")
                  (encodeStruct (mkUser "not-an-email" "" "")))]
  ∧ (DeleteUser (body_request (email_body "not-an-email")) "users"
       ([], empty_table 0)).2.1
    = [] ++ [CallDeleteItem
               (DeleteUser_input "users"
                  (encodeStruct (mkUser "not-an-email" "" "")))].
Proof.
  split; [reflexivity|]. split; [reflexivity|].
  apply (Update_Delete_do_not_check_email
           (body_request (email_body "not-an-email")) "users" []
           (empty_table 0) (mkUser "not-an-email" "" "")); reflexivity.
Defined.

(** X18 at the creation of [a@x.com] on the table that holds [b@x.com]. *)
Lemma CreateUser_then_FetchUsers_witness :
  well_keyed (table_of 0 [bob])
  ∧ (map_to_list (records (table_of 0 [bob]))).*2 = encodeStruct <$> [bob]
  ∧ json_Unmarshal (named_body "a@x.com" "A") zero_User = Some alice
  ∧ mail_ParseAddress (Email alice) = true
  ∧ records (table_of 0 [bob]) !! Email alice = None
  ∧ ∃ (t' : Table) (us : list User),
      CreateUser (body_request (named_body "a@x.com" "A")) "users"
        (table_of 0 [bob]) = (Ok alice, t')
      ∧ FetchUsers (S (S (length [bob]))) "users" t' = Some (Ok us, t')
      ∧ us ≡ₚ alice :: [bob].
Proof.
  assert (well_keyed (table_of 0 [bob])) as Hwf.
  { apply map_Forall_to_list. vm_compute. repeat constructor. }
  split; [exact Hwf|]. split; [reflexivity|]. split; [reflexivity|].
  split; [reflexivity|]. split; [reflexivity|].
  apply (CreateUser_then_FetchUsers
           (body_request (named_body "a@x.com" "A")) "users" (table_of 0 [bob])
           alice [bob] Hwf); reflexivity.
Defined.

End ConcreteFurther.
